(** * Secure Memory Zone (SMZ): CSR configuration protocol and round-trip test

    A shallow embedding of [smz_csr.h] (the CSR access macros, [smz_init],
    [smz_reconfigure], [smz_get_config]) and of [firmware/smz_test.c] (the
    end-to-end pipeline test), followed by the properties proved about them.

    Conventions.
    - A [uint32_t] is a [Z] in [0, 2^32); a conversion to [uint32_t] is
      [to_u32], a conversion to [int] is [to_int].
    - The CSR file and the RAM are total functions from addresses to words,
      updated with [<[a:=v]>]; a CSR read returns the last value written.
    - Code with side effects lives in the monad [M]: a state transformer on
      [machine] that can fault (a store through a null pointer).
    - Every CSR access, memory access and spin of the settle loop is logged,
      in program order, in the machine's [trace]; console output is logged in
      [console]. *)

From stdpp Require Import base numbers functions list strings.

#[local] Open Scope Z_scope.

(** ** Machine words *)

Module Word.

Definition to_u32 (z : Z) : Z := z mod 2 ^ 32.

Definition to_int (z : Z) : Z := (z + 2 ^ 31) mod 2 ^ 32 - 2 ^ 31.

Definition is_u32 (z : Z) : Prop := 0 <= z < 2 ^ 32.

Definition is_pow2 (z : Z) : Prop := exists k : Z, 0 <= k /\ z = 2 ^ k.

(** C truth value of an integer used as a condition. *)
Definition truthy (z : Z) : bool := negb (z =? 0).

End Word.

(** ** The machine: CSR file, RAM, access trace, console *)

Module Hw.

(** One entry of the access trace. [EvStore] and [EvLoad] name the RAM
    address accessed; [EvStore] carries the word that reaches the RAM. *)
Inductive event : Type :=
| EvCsrRead (csr : Z)
| EvCsrWrite (csr val : Z)
| EvSpin
| EvStore (addr val : Z)
| EvLoad (addr : Z).

(** One call of a console primitive, with its arguments. *)
Inductive out : Type :=
| OutStr (s : string)
| OutHex (val digits : Z)
| OutDec (val : Z).

Record machine : Type := Machine {
  csrs : Z -> Z;
  ram : Z -> Z;
  trace : list event;
  console : list out
}.

(** State transformer with faults. *)
Definition M (A : Type) : Type := machine -> option (A * machine).

Definition ret {A : Type} (a : A) : M A := fun m => Some (a, m).

Definition bind {A B : Type} (c : M A) (k : A -> M B) : M B :=
  fun m => match c m with
           | Some (a, m') => k a m'
           | None => None
           end.

(** [x ← c; k] and [c;; k] are [bind]; [mret] is [ret]. *)
#[global] Instance M_ret : MRet M := @ret.
#[global] Instance M_bind : MBind M := fun A B k c => bind c k.

Definition emit (e : event) : M unit :=
  fun m => Some (tt, Machine (csrs m) (ram m) (trace m ++ [e]) (console m)).

Definition print (o : out) : M unit :=
  fun m => Some (tt, Machine (csrs m) (ram m) (trace m) (console m ++ [o])).

(** [csrrs rd, csr, x0]: read a CSR. *)
Definition csrrs_read (csr : Z) : M Z :=
  fun m => Some (csrs m csr,
                 Machine (csrs m) (ram m) (trace m ++ [EvCsrRead csr]) (console m)).

(** [csrrw x0, csr, rs]: write a CSR. *)
Definition csrrw_write (csr val : Z) : M unit :=
  fun m => Some (tt, Machine (<[csr := val]> (csrs m)) (ram m)
                             (trace m ++ [EvCsrWrite csr val]) (console m)).

Definition NULL : Z := 0.

(** [*p = val] for a word-sized object; a null [p] faults. *)
Definition store (p val : Z) : M unit :=
  fun m => if p =? NULL then None
           else Some (tt, Machine (csrs m) (<[p := val]> (ram m))
                                  (trace m ++ [EvStore p val]) (console m)).

(** [*p] for a word-sized object; a null [p] faults. *)
Definition load (p : Z) : M Z :=
  fun m => if p =? NULL then None
           else Some (ram m p,
                      Machine (csrs m) (ram m) (trace m ++ [EvLoad p]) (console m)).

(** [while (delay--);] on a counter that starts non-negative: one spin per
    unit, then the test reads 0 and the loop exits. *)
Fixpoint delay_loop (delay : nat) : M unit :=
  match delay with
  | O => ret tt
  | S d => emit EvSpin;; delay_loop d
  end.

Fixpoint for_from {L : Type} (i n : nat) (body : nat -> L -> M L) (s : L) : M L :=
  match n with
  | O => ret s
  | S n' => s' ← body i s; for_from (S i) n' body s'
  end.

(** [for (i = 0; i < n; i++) body], the loop body acting on the machine
    and on the local variables [s]. *)
Definition for_loop {L : Type} (n : nat) (body : nat -> L -> M L) (s : L) : M L :=
  for_from 0 n body s.

(** The same loop over local variables only (no machine access). *)
Definition for_pure {L : Type} (n : nat) (body : nat -> L -> L) (s : L) : L :=
  fold_left (fun acc i => body i acc) (seq 0 n) s.

(** The CSR writes of a trace, in order. *)
Definition csr_writes (t : list event) : list (Z * Z) :=
  omap (fun e => match e with EvCsrWrite c v => Some (c, v) | _ => None end) t.

(** The trace a computation leaves when started in [m]. *)
Definition run_trace {A : Type} (c : M A) (m : machine) : list event :=
  match c m with
  | Some (_, m') => trace m'
  | None => trace m
  end.

(** The value a computation returns when started in [m]. *)
Definition run_value {A : Type} (c : M A) (m : machine) : option A :=
  match c m with
  | Some (a, _) => Some a
  | None => None
  end.

(** The memory stores of a trace, in order. *)
Definition stores (t : list event) : list (Z * Z) :=
  omap (fun e => match e with EvStore p v => Some (p, v) | _ => None end) t.

(** [csrrs x0, csr, rs]: set in the CSR the bits that are set in [val], in
    one instruction. The access is logged as the write of the resulting
    value. *)
Definition csrrs_set (csr val : Z) : M unit :=
  fun m => let new := Z.lor (csrs m csr) val in
           Some (tt, Machine (<[csr := new]> (csrs m)) (ram m)
                             (trace m ++ [EvCsrWrite csr new]) (console m)).

(** [csrrc x0, csr, rs]: clear in the CSR the bits that are set in [val]. *)
Definition csrrc_clear (csr val : Z) : M unit :=
  fun m => let new := Z.land (csrs m csr) (Z.lnot val) in
           Some (tt, Machine (<[csr := new]> (csrs m)) (ram m)
                             (trace m ++ [EvCsrWrite csr new]) (console m)).

(** [csrrc rd, csr, rs]: the same, and [rd] receives the previous value. *)
Definition csrrc_read_clear (csr val : Z) : M Z :=
  fun m => let new := Z.land (csrs m csr) (Z.lnot val) in
           Some (csrs m csr,
                 Machine (<[csr := new]> (csrs m)) (ram m)
                         (trace m ++ [EvCsrRead csr; EvCsrWrite csr new])
                         (console m)).

End Hw.

(** ** smz_csr.h *)

Module SmzCsr.
Import Word Hw.

Definition CSR_SMZ_BASE : Z := 0x200.
Definition CSR_SMZ_SIZE : Z := 0x201.
Definition CSR_SMZ_ENABLE : Z := 0x202.

(** [read_csr(csr)] *)
Definition read_csr (csr : Z) : M Z := csrrs_read csr.

(** [write_csr(csr, val)]: [val] is first converted to [uint32_t]. *)
Definition write_csr (csr val : Z) : M unit := csrrw_write csr (to_u32 val).

Definition smz_read_base : M Z := read_csr CSR_SMZ_BASE.
Definition smz_write_base (base : Z) : M unit := write_csr CSR_SMZ_BASE base.
Definition smz_read_size : M Z := read_csr CSR_SMZ_SIZE.
Definition smz_write_size (size : Z) : M unit := write_csr CSR_SMZ_SIZE size.
Definition smz_read_enable : M Z := read_csr CSR_SMZ_ENABLE.
Definition smz_write_enable (enable : Z) : M unit :=
  write_csr CSR_SMZ_ENABLE (if truthy enable then 1 else 0).
Definition smz_enable : M unit := write_csr CSR_SMZ_ENABLE 1.
Definition smz_disable : M unit := write_csr CSR_SMZ_ENABLE 0.

(** [smz_is_enabled()]: [read_csr(CSR_SMZ_ENABLE) & 1] *)
Definition smz_is_enabled : M Z :=
  v ← read_csr CSR_SMZ_ENABLE; mret (Z.land v 1).

(** [volatile int delay = 10; while (delay--);] *)
Definition settle : M unit := delay_loop 10.

(** [(base & 0x3) != 0] *)
Definition misaligned (base : Z) : bool := negb (Z.land base 0x3 =? 0).

(** [(size & (size - 1)) != 0 || size == 0], with [size - 1] computed in
    [uint32_t]. *)
Definition bad_size (size : Z) : bool :=
  negb (Z.land size (to_u32 (size - 1)) =? 0) || (size =? 0).

Definition smz_init (base size enable : Z) : M Z :=
  if misaligned base then mret (-1)
  else if bad_size size then mret (-1)
  else
    smz_disable;;
    settle;;
    smz_write_base base;;
    smz_write_size size;;
    (if truthy enable then smz_enable else mret tt);;
    mret 0.

Definition smz_reconfigure (base size : Z) : M Z :=
  if misaligned base || bad_size size then mret (-1)
  else
    en ← smz_is_enabled;
    let was_enabled := to_int en in
    smz_disable;;
    settle;;
    smz_write_base base;;
    smz_write_size size;;
    (if truthy was_enabled then smz_enable else mret tt);;
    mret 0.

(** [base], [size] and [enable] are the three output pointers. *)
Definition smz_get_config (base size enable : Z) : M unit :=
  (if truthy base then v ← smz_read_base; store base v else mret tt);;
  (if truthy size then v ← smz_read_size; store size v else mret tt);;
  (if truthy enable then v ← smz_is_enabled; store enable (to_int v)
   else mret tt).

(** [set_csr_bits(csr, val)] *)
Definition set_csr_bits (csr val : Z) : M unit := csrrs_set csr (to_u32 val).

(** [clear_csr_bits(csr, val)] *)
Definition clear_csr_bits (csr val : Z) : M unit := csrrc_clear csr (to_u32 val).

(** [read_and_clear_csr(csr, val)] *)
Definition read_and_clear_csr (csr val : Z) : M Z :=
  csrrc_read_clear csr (to_u32 val).

(** An argument of a [printf] call: a word for [%08x] and [%u], a string
    for [%s]. *)
Inductive printf_arg : Type :=
| ArgWord (v : Z)
| ArgStr (s : string).

(** One [printf] call: its format, spelled as in the source, and its
    arguments. *)
Inductive printf_call : Type :=
| Printf (fmt : string) (args : list printf_arg).

(** [smz_print_config()]. The [printf] calls it makes are returned, in
    order; the machine's console holds the [firmware.h] output only. *)
Definition smz_print_config : M (list printf_call) :=
  base ← smz_read_base;
  size ← smz_read_size;
  en ← smz_is_enabled;
  let enable := to_int en in
  mret [Printf "SMZ Configuration:\n" [];
        Printf "  Base Address: 0x%08x\n" [ArgWord base];
        Printf "  Region Size:  0x%08x (%u bytes)\n" [ArgWord size; ArgWord size];
        Printf "  Status:       %s\n"
               [ArgStr (if truthy enable then "ENABLED" else "DISABLED")]].

End SmzCsr.

(** ** firmware/smz_test.c *)

Module SmzTest.
Import Word Hw.

Definition CSR_SMZ_BASE : Z := 0x200.
Definition CSR_SMZ_SIZE : Z := 0x201.
Definition CSR_SMZ_ENABLE : Z := 0x202.

Definition SECURE_ADDR : Z := 0x10000.
Definition SECURE_SIZE : Z := 0x1000.

(** The file's own [read_csr] and [write_csr]; both parameters of
    [write_csr] are [uint32_t]. *)
Definition read_csr (csr : Z) : M Z := csrrs_read csr.
Definition write_csr (csr value : Z) : M unit := csrrw_write csr (to_u32 value).

(** Console primitives of [firmware.h]; string literals are kept as they
    are spelled in the source, escapes included. *)
Definition print_str (s : string) : M unit := print (OutStr s).
Definition print_hex (val digits : Z) : M unit := print (OutHex val digits).
Definition print_dec (val : Z) : M unit := print (OutDec val).

(** The SMZ unit between the CPU and the RAM: what a store of a word at an
    address leaves in RAM and what a load makes of the RAM content, under
    the current CSR contents. The unit itself is hardware. *)
Record engine : Type := Engine {
  encrypt : (Z -> Z) -> Z -> Z -> Z;
  decrypt : (Z -> Z) -> Z -> Z -> Z
}.

(** [(0xAA << 24) | (0xBB << 16) | ((i & 0xFF) << 8) | (i & 0xFF)],
    computed in [int] and stored in a [uint32_t]. [0xAA << 24] does not fit
    an [int]: each shift wraps to 32 bits, two's complement. *)
Definition pattern_word (i : Z) : Z :=
  to_u32 (Z.lor (Z.lor (Z.lor (to_int (Z.shiftl 0xAA 24))
                              (to_int (Z.shiftl 0xBB 16)))
                       (to_int (Z.shiftl (Z.land i 0xFF) 8)))
                (Z.land i 0xFF)).

(** STEP 2 loop: [test_image[i] = ...] for [i] in [0, 196). *)
Definition generate (test_image : list Z) : list Z :=
  for_pure 196 (fun i img => <[i := pattern_word (Z.of_nat i)]> img) test_image.

(** STEP 5 loop on [(matches, first_mismatch)]; [matches] is at most 196
    and cannot overflow. *)
Definition compare_step (read_image test_image : list Z) (i : nat)
    (acc : Z * Z) : Z * Z :=
  let '(matches, first_mismatch) := acc in
  if read_image !!! i =? test_image !!! i then (matches + 1, first_mismatch)
  else if first_mismatch =? -1 then (matches, Z.of_nat i)
  else (matches, first_mismatch).

Definition verify (read_image test_image : list Z) : Z * Z :=
  for_pure 196 (compare_step read_image test_image) (0, -1).

(** STEP 1 *)
Definition configure : M (Z * Z * Z) :=
  print_str "STEP 1: Configure SMZ CSRs\n";;
  write_csr CSR_SMZ_BASE SECURE_ADDR;;
  write_csr CSR_SMZ_SIZE SECURE_SIZE;;
  write_csr CSR_SMZ_ENABLE 1;;
  csr_base ← read_csr CSR_SMZ_BASE;
  csr_size ← read_csr CSR_SMZ_SIZE;
  csr_en ← read_csr CSR_SMZ_ENABLE;
  mret (csr_base, csr_size, csr_en).

(** The verdict, from [print_str("  Matching words: ")] on. *)
Definition report (matches first_mismatch : Z)
    (test_image read_image : list Z) : M unit :=
  print_str "  Matching words: ";;
  print_dec matches;;
  print_str " / 196\n\n";;
  if matches =? 196 then
    print_str "✓ PASS: ALL DATA MATCHED!\n";;
    print_str "  SMZ encrypted data on write and decrypted on read correctly.\n";;
    print_str "  Pipeline verification SUCCESSFUL.\n"
  else
    print_str "✗ FAIL: Mismatch detected\n";;
    print_str "  Mismatches: ";;
    print_dec (196 - matches);;
    print_str "\n";;
    if negb (first_mismatch =? -1) then
      print_str "  First mismatch at word ";;
      print_dec first_mismatch;;
      print_str ":\n";;
      print_str "    Expected: 0x";;
      print_hex (test_image !!! Z.to_nat first_mismatch) 8;;
      print_str "\n";;
      print_str "    Got: 0x";;
      print_hex (read_image !!! Z.to_nat first_mismatch) 8;;
      print_str "\n"
    else mret tt.

Section WithEngine.
Variable smz : engine.

(** [secure_mem[i] = val] *)
Definition secure_store (secure_mem : Z) (i : nat) (val : Z) : M unit :=
  fun m => let a := secure_mem + 4 * Z.of_nat i in
           store a (encrypt smz (csrs m) a val) m.

(** [secure_mem[i]] *)
Definition secure_load (secure_mem : Z) (i : nat) : M Z :=
  fun m => let a := secure_mem + 4 * Z.of_nat i in
           (w ← load a; mret (decrypt smz (csrs m) a w)) m.

(** STEP 3 loop *)
Definition write_image (secure_mem : Z) (test_image : list Z) : M unit :=
  for_loop 196 (fun i _ => secure_store secure_mem i (test_image !!! i)) tt.

(** STEP 4 loop *)
Definition read_back (secure_mem : Z) (read_image : list Z) : M (list Z) :=
  for_loop 196
    (fun i img => w ← secure_load secure_mem i; mret (<[i := w]> img))
    read_image.

(** [smz_test()]; [test_image0] and [read_image0] are the contents of
    the two uninitialised 196-word stack arrays on entry. *)
Definition smz_test (test_image0 read_image0 : list Z) : M unit :=
  print_str "\n";;
  print_str "====================================\n";;
  print_str "SMZ Pipeline Test\n";;
  print_str "28x28 Image Encryption Verification\n";;
  print_str "====================================\n\n";;
  '(csr_base, csr_size, csr_en) ← configure;
  print_str "  Base: 0x";;
  print_hex csr_base 8;;
  print_str "  Size: 0x";;
  print_hex csr_size 8;;
  print_str "  Enable: ";;
  print_dec csr_en;;
  print_str "\n\n";;
  print_str "STEP 2: Generate 28x28 Test Image (784 bytes)\n";;
  let test_image := generate test_image0 in
  print_str "  Generated pattern. First word: 0x";;
  print_hex (test_image !!! 0%nat) 8;;
  print_str "\n\n";;
  print_str "STEP 3: Write Image to Secure Memory (encrypted on write)\n";;
  let secure_mem := SECURE_ADDR in
  write_image secure_mem test_image;;
  print_str "  Wrote 196 words to 0x";;
  print_hex SECURE_ADDR 8;;
  print_str " (data gets encrypted by SMZ)\n\n";;
  print_str "STEP 4: Read Back from Secure Memory (decrypted on read)\n";;
  read_image ← read_back secure_mem read_image0;
  print_str "  Read 196 words from secure memory\n\n";;
  print_str "STEP 5: Verify Data Integrity\n";;
  let '(matches, first_mismatch) := verify read_image test_image in
  report matches first_mismatch test_image read_image;;
  print_str "\n====================================\n";;
  print_str "Test Complete\n";;
  print_str "====================================\n\n".

End WithEngine.

End SmzTest.

(** ** Proof automation *)

Module Tactics.
Import Hw.

(** Unfolds the monad and the macros of [smz_csr.h] down to machine
    updates, and flattens the trace. *)
Ltac run_csr :=
  cbv [SmzCsr.smz_disable SmzCsr.smz_enable SmzCsr.smz_write_base
       SmzCsr.smz_write_size SmzCsr.smz_read_base SmzCsr.smz_read_size
       SmzCsr.smz_read_enable SmzCsr.smz_is_enabled SmzCsr.settle delay_loop
       SmzCsr.write_csr SmzCsr.read_csr csrrw_write csrrs_read store emit
       mbind M_bind bind mret M_ret ret csrs ram trace console];
  repeat rewrite <- app_assoc; cbn [app].

(** The same for the CSR and console primitives of [smz_test.c]. *)
Ltac run_io :=
  cbv [SmzTest.print_str SmzTest.print_hex SmzTest.print_dec print
       SmzTest.write_csr SmzTest.read_csr csrrw_write csrrs_read
       mbind M_bind bind mret M_ret ret csrs ram trace console];
  repeat rewrite <- app_assoc; cbn [app].

(** A line is in an explicit list of console lines. *)
Ltac has_line :=
  repeat first [apply list_elem_of_here | apply list_elem_of_further].

(** [H] says a line is in an explicit list that does not have it. *)
Ltac no_such_line H :=
  repeat (apply elem_of_cons in H as [H | H]; [discriminate H |]);
  apply elem_of_nil in H; exact H.

(** Unfolds the bit-set and bit-clear macros of [smz_csr.h] as well. *)
Ltac run_bits :=
  cbv [SmzCsr.set_csr_bits SmzCsr.clear_csr_bits SmzCsr.read_and_clear_csr
       csrrs_set csrrc_clear csrrc_read_clear
       SmzCsr.smz_disable SmzCsr.smz_enable SmzCsr.smz_write_base
       SmzCsr.smz_write_size SmzCsr.smz_read_base SmzCsr.smz_read_size
       SmzCsr.smz_read_enable SmzCsr.smz_write_enable SmzCsr.smz_is_enabled
       SmzCsr.smz_print_config SmzCsr.write_csr SmzCsr.read_csr
       csrrw_write csrrs_read run_value run_trace
       mbind M_bind bind mret M_ret ret csrs ram trace console];
  repeat rewrite <- app_assoc; cbn [app].

End Tactics.

(** * Properties *)

(** ** Word arithmetic *)

Module WordFacts.
Import Word.

Lemma to_u32_small (z : Z) : is_u32 z -> to_u32 z = z.
Proof. unfold is_u32, to_u32. intros Hz. apply Z.mod_small. exact Hz. Qed.

Lemma to_int_small (z : Z) : - 2 ^ 31 <= z < 2 ^ 31 -> to_int z = z.
Proof. unfold to_int. intros Hz. rewrite Z.mod_small; lia. Qed.

Lemma land_1_cases (v : Z) : Z.land v 1 = 0 \/ Z.land v 1 = 1.
Proof.
  change 1 with (Z.ones 1) at 1 2. rewrite Z.land_ones by lia.
  change (2 ^ 1) with 2. pose proof (Z.mod_pos_bound v 2). lia.
Qed.

Lemma to_int_land_1 (v : Z) : to_int (Z.land v 1) = Z.land v 1.
Proof. apply to_int_small. destruct (land_1_cases v) as [-> | ->]; lia. Qed.

Lemma land_3_mod_4 (base : Z) : Z.land base 3 = base mod 4.
Proof. change 3 with (Z.ones 2). rewrite Z.land_ones by lia. reflexivity. Qed.

(** A power of two has no bit in common with its predecessor. *)
Lemma pow2_land_pred (k : Z) : 0 <= k -> Z.land (2 ^ k) (2 ^ k - 1) = 0.
Proof.
  intros Hk. replace (2 ^ k - 1) with (Z.ones k) by (rewrite Z.ones_equiv; lia).
  rewrite Z.land_ones by lia. apply Z.mod_same. lia.
Qed.

(** A positive number that is not a power of two shares its top bit with
    its predecessor. *)
Lemma land_pred_pow2 (n : Z) : 0 < n -> Z.land n (n - 1) = 0 -> is_pow2 n.
Proof.
  intros Hn Hland.
  pose proof (Z.log2_nonneg n) as Hk.
  destruct (Z.log2_spec n Hn) as [Hlo Hhi].
  exists (Z.log2 n). split; [exact Hk |].
  destruct (Z.eq_dec n (2 ^ Z.log2 n)) as [Heq | Hne]; [exact Heq | exfalso].
  assert (Hlog : Z.log2 (n - 1) = Z.log2 n).
  { apply Z.log2_unique; [exact Hk |]. rewrite <- Z.add_1_r in Hhi |- *. lia. }
  assert (Hbit : Z.testbit (Z.land n (n - 1)) (Z.log2 n) = true).
  { rewrite Z.land_spec, Z.bit_log2 by lia.
    rewrite <- Hlog. rewrite Z.bit_log2 by lia. reflexivity. }
  rewrite Hland, Z.bits_0 in Hbit. discriminate.
Qed.

Lemma pow2_pos (n : Z) : is_pow2 n -> 0 < n.
Proof. intros (k & Hk & ->). apply Z.pow_pos_nonneg; lia. Qed.

End WordFacts.

(** ** The validation tests of [smz_init] and [smz_reconfigure] *)

Module ValidationFacts.
Import Word WordFacts SmzCsr.

Lemma misaligned_true (base : Z) : misaligned base = true <-> base mod 4 <> 0.
Proof.
  unfold misaligned. change 0x3 with 3. rewrite land_3_mod_4.
  destruct (Z.eqb_spec (base mod 4) 0); simpl; split; intros; congruence.
Qed.

Lemma misaligned_false (base : Z) : misaligned base = false <-> base mod 4 = 0.
Proof.
  unfold misaligned. change 0x3 with 3. rewrite land_3_mod_4.
  destruct (Z.eqb_spec (base mod 4) 0); simpl; split; intros; congruence.
Qed.

Lemma bad_size_false (size : Z) :
  is_u32 size -> bad_size size = false <-> 0 < size /\ is_pow2 size.
Proof.
  intros Hsz. unfold bad_size, is_u32 in *.
  destruct (Z.eqb_spec size 0) as [-> | Hnz].
  - rewrite orb_true_r. split; [discriminate | intros [? _]; lia].
  - rewrite orb_false_r, to_u32_small by (unfold is_u32; lia).
    destruct (Z.eqb_spec (Z.land size (size - 1)) 0) as [Hz | Hz]; simpl.
    + split; [intros _ | reflexivity].
      split; [lia | apply land_pred_pow2; [lia | exact Hz]].
    + split; [discriminate | intros [_ (k & Hk & ->)]].
      exfalso. apply Hz, pow2_land_pred, Hk.
Qed.

Lemma bad_size_true (size : Z) :
  is_u32 size -> bad_size size = true <-> size = 0 \/ ~ is_pow2 size.
Proof.
  intros Hsz. pose proof (bad_size_false size Hsz) as Hf.
  destruct (bad_size size); split; intros H; try reflexivity; try discriminate.
  - destruct (Z.eq_dec size 0) as [? | Hnz]; [left; assumption | right].
    intros Hp. destruct Hf as [_ Hf].
    discriminate Hf. split; [apply pow2_pos, Hp | exact Hp].
  - destruct Hf as [Hf _]. destruct (Hf eq_refl) as [Hpos Hp].
    destruct H as [-> | Hn]; [lia | contradiction].
Qed.

End ValidationFacts.

(** ** Configuration manager: [smz_init], [smz_reconfigure], [smz_get_config] *)

Module ConfigFacts.
Import Word Hw WordFacts SmzCsr ValidationFacts Tactics.

Lemma to_u32_0 : to_u32 0 = 0.
Proof. reflexivity. Qed.

Lemma to_u32_1 : to_u32 1 = 1.
Proof. reflexivity. Qed.

(** What a run of [smz_init] that passes validation does to the machine. *)
Lemma smz_init_run (base size enable : Z) (m : machine) :
  misaligned base = false -> bad_size size = false ->
  smz_init base size enable m =
  Some (0, Machine
    ((if truthy enable then <[CSR_SMZ_ENABLE := 1]> else id)
       (<[CSR_SMZ_SIZE := to_u32 size]>
          (<[CSR_SMZ_BASE := to_u32 base]>
             (<[CSR_SMZ_ENABLE := 0]> (csrs m)))))
    (ram m)
    (trace m ++ [EvCsrWrite CSR_SMZ_ENABLE 0] ++ replicate 10 EvSpin
       ++ [EvCsrWrite CSR_SMZ_BASE (to_u32 base);
           EvCsrWrite CSR_SMZ_SIZE (to_u32 size)]
       ++ (if truthy enable then [EvCsrWrite CSR_SMZ_ENABLE 1] else []))
    (console m)).
Proof.
  intros Ha Hs. destruct m as [c r t o]. unfold smz_init. rewrite Ha, Hs.
  destruct (truthy enable); run_csr; rewrite to_u32_0, ?to_u32_1; reflexivity.
Qed.

(** What a run of [smz_reconfigure] that passes validation does. *)
Lemma smz_reconfigure_run (base size : Z) (m : machine) :
  misaligned base = false -> bad_size size = false ->
  let was_enabled := Z.land (csrs m CSR_SMZ_ENABLE) 1 in
  smz_reconfigure base size m =
  Some (0, Machine
    ((if truthy was_enabled then <[CSR_SMZ_ENABLE := 1]> else id)
       (<[CSR_SMZ_SIZE := to_u32 size]>
          (<[CSR_SMZ_BASE := to_u32 base]>
             (<[CSR_SMZ_ENABLE := 0]> (csrs m)))))
    (ram m)
    (trace m ++ [EvCsrRead CSR_SMZ_ENABLE; EvCsrWrite CSR_SMZ_ENABLE 0]
       ++ replicate 10 EvSpin
       ++ [EvCsrWrite CSR_SMZ_BASE (to_u32 base);
           EvCsrWrite CSR_SMZ_SIZE (to_u32 size)]
       ++ (if truthy was_enabled then [EvCsrWrite CSR_SMZ_ENABLE 1] else []))
    (console m)).
Proof.
  intros Ha Hs. destruct m as [c r t o]. unfold smz_reconfigure.
  rewrite Ha, Hs. cbn [orb]. run_csr. rewrite to_int_land_1.
  destruct (truthy (Z.land (c CSR_SMZ_ENABLE) 1));
    run_csr; rewrite to_u32_0, ?to_u32_1; reflexivity.
Qed.

(** What [smz_get_config] does, for any three pointers. *)
Lemma smz_get_config_run (base size enable : Z) (m : machine) :
  smz_get_config base size enable m =
  Some (tt, Machine
    (csrs m)
    ((if enable =? NULL then id
      else <[enable := Z.land (csrs m CSR_SMZ_ENABLE) 1]>)
       ((if size =? NULL then id else <[size := csrs m CSR_SMZ_SIZE]>)
          ((if base =? NULL then id else <[base := csrs m CSR_SMZ_BASE]>)
             (ram m))))
    (trace m
       ++ (if base =? NULL then []
           else [EvCsrRead CSR_SMZ_BASE; EvStore base (csrs m CSR_SMZ_BASE)])
       ++ (if size =? NULL then []
           else [EvCsrRead CSR_SMZ_SIZE; EvStore size (csrs m CSR_SMZ_SIZE)])
       ++ (if enable =? NULL then []
           else [EvCsrRead CSR_SMZ_ENABLE;
                 EvStore enable (Z.land (csrs m CSR_SMZ_ENABLE) 1)]))
    (console m)).
Proof.
  destruct m as [c r t o]. unfold smz_get_config, truthy, NULL.
  destruct (base =? 0) eqn:Hb, (size =? 0) eqn:Hs, (enable =? 0) eqn:He;
    cbn [negb]; run_csr; unfold NULL;
    rewrite ?Hb, ?Hs, ?He, ?to_int_land_1, ?app_nil_r;
    repeat rewrite <- app_assoc; reflexivity.
Qed.

Lemma stores_app (t1 t2 : list event) : stores (t1 ++ t2) = stores t1 ++ stores t2.
Proof. apply omap_app. Qed.

Lemma stores_spins (n : nat) : stores (replicate n EvSpin) = [].
Proof. induction n as [| n IH]; [reflexivity | exact IH]. Qed.

(** C1. A misaligned base, a zero size or a size that is not a power of
    two makes both [smz_init] and [smz_reconfigure] return the error value
    -1 and leave the machine as it was: no CSR is written, nothing is
    added to the trace. *)
Theorem invalid_geometry_rejected (base size enable : Z) (m : machine) :
  is_u32 size ->
  base mod 4 <> 0 \/ size = 0 \/ ~ is_pow2 size ->
  smz_init base size enable m = Some (-1, m) /\
  smz_reconfigure base size m = Some (-1, m).
Proof.
  intros Hsz Hbad. unfold smz_init, smz_reconfigure.
  destruct (misaligned base) eqn:Ha; [split; reflexivity |].
  destruct Hbad as [Hb | Hb].
  - apply misaligned_true in Hb. congruence.
  - apply (bad_size_true size Hsz) in Hb. rewrite Hb. split; reflexivity.
Qed.

Lemma invalid_geometry_rejected_witness :
  (smz_init 0x10002 0x1000 1 (Machine (fun _ => 7) (fun _ => 0) [] []) =
     Some (-1, Machine (fun _ => 7) (fun _ => 0) [] []) /\
   smz_reconfigure 0x10002 0x1000 (Machine (fun _ => 7) (fun _ => 0) [] []) =
     Some (-1, Machine (fun _ => 7) (fun _ => 0) [] [])).
Proof.
  apply (invalid_geometry_rejected 0x10002 0x1000 1).
  - unfold is_u32. lia.
  - left. vm_compute. discriminate.
Defined.

(** C2. With an aligned base and a power-of-two size, [smz_init] returns
    0, and a following [smz_get_config] through three non-null pointers
    stores exactly [base], [size] and the enable flag through them; when
    the three pointers are distinct the three objects then hold these
    values. *)
Theorem init_then_get_config (base size : Z) (enable : bool)
    (pbase psize penable : Z) (m : machine) :
  is_u32 base -> is_u32 size ->
  base mod 4 = 0 -> 0 < size -> is_pow2 size ->
  pbase <> NULL -> psize <> NULL -> penable <> NULL ->
  exists m1 m2,
    smz_init base size (Z.b2z enable) m = Some (0, m1) /\
    smz_get_config pbase psize penable m1 = Some (tt, m2) /\
    stores (trace m2) =
      stores (trace m)
        ++ [(pbase, base); (psize, size); (penable, Z.b2z enable)] /\
    (pbase <> psize -> pbase <> penable -> psize <> penable ->
     ram m2 pbase = base /\ ram m2 psize = size /\
     ram m2 penable = Z.b2z enable).
Proof.
  intros Hb Hs Ha Hpos Hp Hnb Hns Hne.
  apply misaligned_false in Ha.
  assert (Hs' : bad_size size = false) by (apply bad_size_false; auto).
  eexists _, _. split; [apply smz_init_run; assumption |].
  split; [apply smz_get_config_run |].
  apply Z.eqb_neq in Hnb, Hns, Hne. rewrite Hnb, Hns, Hne.
  rewrite !to_u32_small by assumption.
  cbn [csrs ram trace]. unfold CSR_SMZ_BASE, CSR_SMZ_SIZE, CSR_SMZ_ENABLE.
  apply Z.eqb_neq in Hnb, Hns, Hne.
  destruct enable; cbn [Z.b2z truthy Z.eqb negb id].
  - rewrite fn_lookup_insert.
    rewrite !(fn_lookup_insert_ne _ 0x202 _) by lia.
    rewrite fn_lookup_insert, (fn_lookup_insert_ne _ 0x201 0x200) by lia.
    rewrite fn_lookup_insert.
    split.
    + rewrite !stores_app, stores_spins. cbn. rewrite app_nil_r. reflexivity.
    + intros H1 H2 H3. rewrite fn_lookup_insert.
      rewrite !(fn_lookup_insert_ne _ penable) by congruence.
      rewrite fn_lookup_insert, (fn_lookup_insert_ne _ psize) by congruence.
      rewrite fn_lookup_insert. auto.
  - rewrite fn_lookup_insert.
    rewrite (fn_lookup_insert_ne _ 0x201 0x200) by lia.
    rewrite fn_lookup_insert.
    rewrite !(fn_lookup_insert_ne _ _ 0x202) by lia.
    rewrite fn_lookup_insert.
    split.
    + rewrite !stores_app, stores_spins. cbn. rewrite app_nil_r. reflexivity.
    + intros H1 H2 H3. rewrite fn_lookup_insert.
      rewrite !(fn_lookup_insert_ne _ penable) by congruence.
      rewrite fn_lookup_insert, (fn_lookup_insert_ne _ psize) by congruence.
      rewrite fn_lookup_insert. auto.
Qed.

Lemma init_then_get_config_witness :
  exists m1 m2,
    smz_init 0x10000 0x1000 (Z.b2z true)
      (Machine (fun _ => 0) (fun _ => 0) [] []) = Some (0, m1) /\
    smz_get_config 0x20000 0x20004 0x20008 m1 = Some (tt, m2) /\
    stores (trace m2) =
      stores []
        ++ [(0x20000, 0x10000); (0x20004, 0x1000); (0x20008, Z.b2z true)] /\
    (0x20000 <> 0x20004 -> 0x20000 <> 0x20008 -> 0x20004 <> 0x20008 ->
     ram m2 0x20000 = 0x10000 /\ ram m2 0x20004 = 0x1000 /\
     ram m2 0x20008 = Z.b2z true).
Proof.
  apply (init_then_get_config 0x10000 0x1000 true 0x20000 0x20004 0x20008
           (Machine (fun _ => 0) (fun _ => 0) [] [])).
  - unfold is_u32. lia.
  - unfold is_u32. lia.
  - reflexivity.
  - lia.
  - exists 12. split; [lia | reflexivity].
  - unfold NULL. lia.
  - unfold NULL. lia.
  - unfold NULL. lia.
Defined.

(** C3. A [smz_reconfigure] that passes validation leaves
    [smz_is_enabled()] as it found it, whatever the ENABLE register held
    and whatever the new geometry is. *)
Theorem reconfigure_preserves_enabled (new_base new_size : Z) (m : machine) :
  is_u32 new_size ->
  new_base mod 4 = 0 -> 0 < new_size -> is_pow2 new_size ->
  exists m',
    smz_reconfigure new_base new_size m = Some (0, m') /\
    run_value smz_is_enabled m' = run_value smz_is_enabled m.
Proof.
  intros Hs Ha Hpos Hp. destruct m as [c r t o].
  apply misaligned_false in Ha.
  assert (Hs' : bad_size new_size = false) by (apply bad_size_false; auto).
  eexists. split; [apply smz_reconfigure_run; assumption |].
  unfold run_value. run_csr. f_equal.
  unfold CSR_SMZ_BASE, CSR_SMZ_SIZE, CSR_SMZ_ENABLE.
  destruct (land_1_cases (c 0x202)) as [-> | ->]; cbn [truthy Z.eqb negb id].
  - rewrite !(fn_lookup_insert_ne _ _ 0x202) by lia.
    rewrite fn_lookup_insert. reflexivity.
  - rewrite fn_lookup_insert. reflexivity.
Qed.

Lemma reconfigure_preserves_enabled_witness :
  exists m',
    smz_reconfigure 0x20000 0x2000
      (Machine (<[0x202 := 3]> (fun _ => 0)) (fun _ => 0) [] []) = Some (0, m') /\
    run_value smz_is_enabled m' =
    run_value smz_is_enabled
      (Machine (<[0x202 := 3]> (fun _ => 0)) (fun _ => 0) [] []).
Proof.
  apply (reconfigure_preserves_enabled 0x20000 0x2000).
  - unfold is_u32. lia.
  - reflexivity.
  - lia.
  - exists 13. split; [lia | reflexivity].
Defined.

(** C4. With an aligned base and a power-of-two size [smz_init] returns 0,
    and every run of [smz_init] that returns 0 adds to the trace, in this
    order: the write of 0 to ENABLE, the ten spins of the settle loop, the
    write of [base] to BASE, the write of [size] to SIZE, and a write of 1
    to ENABLE exactly when [enable] is non-zero. Every BASE or SIZE write
    among them comes after the disabling write. *)
Theorem init_write_order (base size enable : Z) (m : machine) :
  is_u32 base -> is_u32 size ->
  (base mod 4 = 0 -> 0 < size -> is_pow2 size ->
   exists m', smz_init base size enable m = Some (0, m')) /\
  (forall m',
     smz_init base size enable m = Some (0, m') ->
     exists evs,
       trace m' = trace m ++ evs /\
       evs = [EvCsrWrite CSR_SMZ_ENABLE 0] ++ replicate 10 EvSpin
               ++ [EvCsrWrite CSR_SMZ_BASE base; EvCsrWrite CSR_SMZ_SIZE size]
               ++ (if truthy enable then [EvCsrWrite CSR_SMZ_ENABLE 1] else []) /\
       forall pre post csr val,
         evs = pre ++ EvCsrWrite csr val :: post ->
         csr = CSR_SMZ_BASE \/ csr = CSR_SMZ_SIZE ->
         EvCsrWrite CSR_SMZ_ENABLE 0 ∈ pre).
Proof.
  intros Hb Hs. split.
  - intros Ha Hpos Hp. apply misaligned_false in Ha.
    assert (Hs' : bad_size size = false) by (apply bad_size_false; auto).
    eexists. apply smz_init_run; assumption.
  - intros m' Hrun.
    destruct (misaligned base) eqn:Ha;
      [unfold smz_init in Hrun; rewrite Ha in Hrun; discriminate |].
    destruct (bad_size size) eqn:Hs';
      [unfold smz_init in Hrun; rewrite Ha, Hs' in Hrun; discriminate |].
    rewrite (smz_init_run base size enable m Ha Hs') in Hrun.
    rewrite !to_u32_small in Hrun by assumption.
    injection Hrun as <-. eexists. split; [reflexivity |]. split; [reflexivity |].
    intros pre post csr val Hsplit Hcsr.
    destruct pre as [| e pre]; cbn in Hsplit.
    + injection Hsplit as Hc _ _.
      unfold CSR_SMZ_BASE, CSR_SMZ_SIZE, CSR_SMZ_ENABLE in *. lia.
    + injection Hsplit as <- _. apply list_elem_of_here.
Qed.

Lemma init_write_order_witness :
  (0x10000 mod 4 = 0 -> 0 < 0x1000 -> is_pow2 0x1000 ->
   exists m',
     smz_init 0x10000 0x1000 1 (Machine (fun _ => 0) (fun _ => 0) [] [])
       = Some (0, m')) /\
  (forall m',
     smz_init 0x10000 0x1000 1 (Machine (fun _ => 0) (fun _ => 0) [] [])
       = Some (0, m') ->
     exists evs,
       trace m' = trace (Machine (fun _ => 0) (fun _ => 0) [] []) ++ evs /\
       evs = [EvCsrWrite CSR_SMZ_ENABLE 0] ++ replicate 10 EvSpin
               ++ [EvCsrWrite CSR_SMZ_BASE 0x10000;
                   EvCsrWrite CSR_SMZ_SIZE 0x1000]
               ++ (if truthy 1 then [EvCsrWrite CSR_SMZ_ENABLE 1] else []) /\
       forall pre post csr val,
         evs = pre ++ EvCsrWrite csr val :: post ->
         csr = CSR_SMZ_BASE \/ csr = CSR_SMZ_SIZE ->
         EvCsrWrite CSR_SMZ_ENABLE 0 ∈ pre).
Proof.
  apply (init_write_order 0x10000 0x1000 1
           (Machine (fun _ => 0) (fun _ => 0) [] [])).
  - unfold is_u32. lia.
  - unfold is_u32. lia.
Defined.

(** C6, as the code has it. [smz_init] and [smz_reconfigure] have one
    error value: -1 for a misaligned base and -1 for a zero or
    non-power-of-two size alike; 0 means the configuration was applied. *)
Theorem validation_single_error_value (base size enable : Z) (m : machine) :
  is_u32 size ->
  (base mod 4 <> 0 ->
     run_value (smz_init base size enable) m = Some (-1) /\
     run_value (smz_reconfigure base size) m = Some (-1)) /\
  (size = 0 \/ ~ is_pow2 size ->
     run_value (smz_init base size enable) m = Some (-1) /\
     run_value (smz_reconfigure base size) m = Some (-1)) /\
  (base mod 4 = 0 -> 0 < size -> is_pow2 size ->
     run_value (smz_init base size enable) m = Some 0 /\
     run_value (smz_reconfigure base size) m = Some 0).
Proof.
  intros Hsz. unfold run_value. split; [| split].
  - intros Ha. apply misaligned_true in Ha.
    unfold smz_init, smz_reconfigure. rewrite Ha. split; reflexivity.
  - intros Hs. apply (bad_size_true size Hsz) in Hs.
    unfold smz_init, smz_reconfigure. rewrite Hs, orb_true_r.
    destruct (misaligned base); split; reflexivity.
  - intros Ha Hpos Hp. apply misaligned_false in Ha.
    assert (Hs : bad_size size = false) by (apply bad_size_false; auto).
    rewrite (smz_init_run _ _ _ _ Ha Hs), (smz_reconfigure_run _ _ _ Ha Hs).
    split; reflexivity.
Qed.

Lemma validation_single_error_value_witness :
  (0x10002 mod 4 <> 0 ->
     run_value (smz_init 0x10002 0 1) (Machine (fun _ => 0) (fun _ => 0) [] [])
       = Some (-1) /\
     run_value (smz_reconfigure 0x10002 0) (Machine (fun _ => 0) (fun _ => 0) [] [])
       = Some (-1)) /\
  (0 = 0 \/ ~ is_pow2 0 ->
     run_value (smz_init 0x10002 0 1) (Machine (fun _ => 0) (fun _ => 0) [] [])
       = Some (-1) /\
     run_value (smz_reconfigure 0x10002 0) (Machine (fun _ => 0) (fun _ => 0) [] [])
       = Some (-1)) /\
  (0x10002 mod 4 = 0 -> 0 < 0 -> is_pow2 0 ->
     run_value (smz_init 0x10002 0 1) (Machine (fun _ => 0) (fun _ => 0) [] [])
       = Some 0 /\
     run_value (smz_reconfigure 0x10002 0) (Machine (fun _ => 0) (fun _ => 0) [] [])
       = Some 0).
Proof.
  apply (validation_single_error_value 0x10002 0 1).
  unfold is_u32. lia.
Defined.

(** C6, as the specification has it, does not hold: a base that breaks
    only the alignment rule and a size that breaks only the size rule give
    the same returned value, so the value does not tell which rule was
    violated. *)
Lemma validation_errors_not_told_apart :
  0x10002 mod 4 <> 0 /\ is_pow2 0x1000 /\
  0x10000 mod 4 = 0 /\ ~ is_pow2 0x1001 /\
  run_value (smz_init 0x10002 0x1000 1) (Machine (fun _ => 0) (fun _ => 0) [] [])
  = run_value (smz_init 0x10000 0x1001 1) (Machine (fun _ => 0) (fun _ => 0) [] []) /\
  run_value (smz_reconfigure 0x10002 0x1000) (Machine (fun _ => 0) (fun _ => 0) [] [])
  = run_value (smz_reconfigure 0x10000 0x1001) (Machine (fun _ => 0) (fun _ => 0) [] []).
Proof.
  split; [discriminate |]. split; [exists 12; split; [lia | reflexivity] |].
  split; [reflexivity |]. split; [| split; reflexivity].
  assert (Hu : is_u32 0x1001) by (unfold is_u32; lia).
  destruct (bad_size_true 0x1001 Hu) as [H _].
  destruct (H eq_refl) as [H0 | Hn]; [discriminate | exact Hn].
Qed.

(** C10. [smz_get_config] never faults, whichever of its three pointers
    are null: it reads a CSR and stores through a pointer only where that
    pointer is non-null, storing BASE, SIZE and the low bit of ENABLE
    respectively, and none of the accesses it adds goes through NULL. *)
Theorem get_config_null_tolerant (base size enable : Z) (m : machine) :
  exists m' evs,
    smz_get_config base size enable m = Some (tt, m') /\
    csrs m' = csrs m /\
    trace m' = trace m ++ evs /\
    stores evs =
      (if base =? NULL then [] else [(base, csrs m CSR_SMZ_BASE)])
      ++ (if size =? NULL then [] else [(size, csrs m CSR_SMZ_SIZE)])
      ++ (if enable =? NULL then []
          else [(enable, Z.land (csrs m CSR_SMZ_ENABLE) 1)]) /\
    forall e, e ∈ evs ->
      (forall v, e <> EvStore NULL v) /\ e <> EvLoad NULL.
Proof.
  eexists _, _. split; [apply smz_get_config_run |].
  split; [reflexivity |]. split; [reflexivity |].
  unfold NULL.
  destruct (Z.eqb_spec base 0), (Z.eqb_spec size 0), (Z.eqb_spec enable 0);
    (split; [reflexivity |]); intros ev Hev; cbn [app] in Hev;
    repeat (apply elem_of_cons in Hev as [-> | Hev]);
    try (apply elem_of_nil in Hev; contradiction);
    split; try discriminate; intros v; congruence.
Qed.

End ConfigFacts.

(** ** Loops *)

Module LoopFacts.
Import Hw.

Lemma for_pure_S {L : Type} (n : nat) (body : nat -> L -> L) (s : L) :
  for_pure (S n) body s = body n (for_pure n body s).
Proof. unfold for_pure. rewrite seq_S, fold_left_app. reflexivity. Qed.

(** A loop that fills [a[i] = f i] for [i] in [0, n) overwrites the first
    [n] cells and keeps the rest. *)
Lemma for_pure_fill (f : nat -> Z) (n : nat) (a : list Z) :
  (n <= length a)%nat ->
  for_pure n (fun i img => <[i := f i]> img) a = (f <$> seq 0 n) ++ drop n a.
Proof.
  induction n as [| n IH]; intros Hn; [reflexivity |].
  rewrite for_pure_S, IH by lia.
  destruct (lookup_lt_is_Some_2 a n) as [x Hx]; [lia |].
  rewrite insert_app_r_alt by (rewrite length_fmap, length_seq; lia).
  rewrite length_fmap, length_seq, Nat.sub_diag, (drop_S _ _ _ Hx).
  rewrite seq_S, fmap_app, <- app_assoc. reflexivity.
Qed.

(** Invariant rule for [for_from]: a body that never faults under the
    invariant and re-establishes it makes the loop run to completion. *)
Lemma for_from_inv {L : Type} (I : nat -> L -> machine -> Prop)
    (body : nat -> L -> M L) (n i : nat) (s : L) (m : machine) :
  I i s m ->
  (forall j s1 m1, (i <= j < i + n)%nat -> I j s1 m1 ->
     exists s2 m2, body j s1 m1 = Some (s2, m2) /\ I (S j) s2 m2) ->
  exists s' m', for_from i n body s m = Some (s', m') /\ I (i + n)%nat s' m'.
Proof.
  revert i s m. induction n as [| n IH]; intros i s m Hi Hbody.
  - exists s, m. rewrite Nat.add_0_r. split; [reflexivity | exact Hi].
  - destruct (Hbody i s m) as (s2 & m2 & Hrun & Hi2); [lia | exact Hi |].
    destruct (IH (S i) s2 m2 Hi2) as (s' & m' & Hloop & Hi').
    { intros j s1 m1 Hj. apply Hbody. lia. }
    exists s', m'. split.
    + cbn [for_from]. unfold mbind, M_bind, bind. rewrite Hrun. exact Hloop.
    + replace (i + S n)%nat with (S i + n)%nat by lia. exact Hi'.
Qed.

Lemma for_loop_inv {L : Type} (I : nat -> L -> machine -> Prop)
    (body : nat -> L -> M L) (n : nat) (s : L) (m : machine) :
  I 0%nat s m ->
  (forall j s1 m1, (j < n)%nat -> I j s1 m1 ->
     exists s2 m2, body j s1 m1 = Some (s2, m2) /\ I (S j) s2 m2) ->
  exists s' m', for_loop n body s m = Some (s', m') /\ I n s' m'.
Proof.
  intros H0 Hbody. apply (for_from_inv I body n 0 s m H0).
  intros j s1 m1 Hj. apply Hbody. lia.
Qed.

End LoopFacts.

(** ** The pipeline test: pattern, comparison, verdict *)

Module TestFacts.
Import Word Hw WordFacts LoopFacts SmzTest Tactics.

(** The pattern word as the specification writes it. *)
Lemma pattern_word_value (i : nat) :
  (i < 196)%nat ->
  pattern_word (Z.of_nat i) =
  Z.lor (Z.lor 0xAABB0000 (Z.shiftl (Z.land (Z.of_nat i) 0xFF) 8))
        (Z.land (Z.of_nat i) 0xFF).
Proof.
  intros Hi.
  assert (Hall : forallb (fun j =>
      pattern_word (Z.of_nat j) =?
      Z.lor (Z.lor 0xAABB0000 (Z.shiftl (Z.land (Z.of_nat j) 0xFF) 8))
            (Z.land (Z.of_nat j) 0xFF)) (seq 0 196) = true)
    by (vm_compute; reflexivity).
  rewrite forallb_forall in Hall. apply Z.eqb_eq, Hall, in_seq. lia.
Qed.

Lemma generate_eq (test_image : list Z) :
  length test_image = 196%nat ->
  generate test_image = (fun i => pattern_word (Z.of_nat i)) <$> seq 0 196.
Proof.
  intros Hlen. unfold generate.
  rewrite (for_pure_fill (fun i => pattern_word (Z.of_nat i))) by lia.
  rewrite drop_ge by lia. apply app_nil_r.
Qed.

Lemma generate_lookup (test_image : list Z) (i : nat) :
  length test_image = 196%nat -> (i < 196)%nat ->
  generate test_image !! i = Some (pattern_word (Z.of_nat i)).
Proof.
  intros Hlen Hi. rewrite generate_eq by exact Hlen.
  rewrite list_lookup_fmap, lookup_seq_lt by exact Hi. reflexivity.
Qed.

Lemma generate_length (test_image : list Z) :
  length test_image = 196%nat -> length (generate test_image) = 196%nat.
Proof.
  intros Hlen. rewrite generate_eq by exact Hlen.
  rewrite length_fmap, length_seq. reflexivity.
Qed.

(** C7. The generated pattern has 196 words, word [i] is
    [0xAABB0000 | ((i & 0xFF) << 8) | (i & 0xFF)], and it does not depend
    on what the array held before: generating again gives the same
    words. *)
Theorem pattern_deterministic (test_image test_image' : list Z) :
  length test_image = 196%nat -> length test_image' = 196%nat ->
  length (generate test_image) = 196%nat /\
  (forall i : nat, (i < 196)%nat ->
     generate test_image !! i =
     Some (Z.lor (Z.lor 0xAABB0000 (Z.shiftl (Z.land (Z.of_nat i) 0xFF) 8))
                 (Z.land (Z.of_nat i) 0xFF))) /\
  generate test_image' = generate test_image /\
  generate (generate test_image) = generate test_image.
Proof.
  intros Hlen Hlen'. split; [apply generate_length, Hlen |]. split.
  - intros i Hi. rewrite generate_lookup, pattern_word_value by assumption.
    reflexivity.
  - split.
    + rewrite !generate_eq by assumption. reflexivity.
    + rewrite (generate_eq (generate _)) by (apply generate_length, Hlen).
      rewrite generate_eq by assumption. reflexivity.
Qed.

Lemma pattern_deterministic_witness :
  length (generate (replicate 196 0)) = 196%nat /\
  (forall i : nat, (i < 196)%nat ->
     generate (replicate 196 0) !! i =
     Some (Z.lor (Z.lor 0xAABB0000 (Z.shiftl (Z.land (Z.of_nat i) 0xFF) 8))
                 (Z.land (Z.of_nat i) 0xFF))) /\
  generate (replicate 196 0xDEADBEEF) = generate (replicate 196 0) /\
  generate (generate (replicate 196 0)) = generate (replicate 196 0).
Proof.
  apply (pattern_deterministic (replicate 196 0) (replicate 196 0xDEADBEEF));
    reflexivity.
Defined.

(** The lines [report] prints. *)
Lemma report_run (matches first_mismatch : Z) (test_image read_image : list Z)
    (m : machine) :
  report matches first_mismatch test_image read_image m =
  Some (tt, Machine (csrs m) (ram m) (trace m)
    (console m
       ++ [OutStr "  Matching words: "; OutDec matches; OutStr " / 196\n\n"]
       ++ (if matches =? 196 then
             [OutStr "✓ PASS: ALL DATA MATCHED!\n";
              OutStr "  SMZ encrypted data on write and decrypted on read correctly.\n";
              OutStr "  Pipeline verification SUCCESSFUL.\n"]
           else
             [OutStr "✗ FAIL: Mismatch detected\n";
              OutStr "  Mismatches: "; OutDec (196 - matches); OutStr "\n"]
             ++ (if first_mismatch =? -1 then []
                 else
                   [OutStr "  First mismatch at word "; OutDec first_mismatch;
                    OutStr ":\n";
                    OutStr "    Expected: 0x";
                    OutHex (test_image !!! Z.to_nat first_mismatch) 8;
                    OutStr "\n";
                    OutStr "    Got: 0x";
                    OutHex (read_image !!! Z.to_nat first_mismatch) 8;
                    OutStr "\n"])))).
Proof.
  destruct m as [c r t o]. unfold report.
  destruct (matches =? 196); [run_io; reflexivity |].
  destruct (first_mismatch =? -1); cbn [negb]; run_io; reflexivity.
Qed.

(** Comparing an array with itself counts every word and records no
    mismatch. *)
Lemma compare_same (a : list Z) (n : nat) :
  for_pure n (compare_step a a) (0, -1) = (Z.of_nat n, -1).
Proof.
  induction n as [| n IH]; [reflexivity |].
  rewrite for_pure_S, IH. unfold compare_step. rewrite Z.eqb_refl.
  f_equal. lia.
Qed.

(** Comparing two arrays that differ at index [k] only: the count runs
    one behind from [k] on, and [k] is recorded. *)
Lemma compare_one_off (read_image test_image : list Z) (k n : nat) :
  (k < 196)%nat -> (n <= 196)%nat ->
  read_image !!! k <> test_image !!! k ->
  (forall i : nat, (i < 196)%nat -> i <> k ->
     read_image !!! i = test_image !!! i) ->
  for_pure n (compare_step read_image test_image) (0, -1) =
  if (n <=? k)%nat then (Z.of_nat n, -1) else (Z.of_nat n - 1, Z.of_nat k).
Proof.
  intros Hk Hn Hdiff Hsame. induction n as [| n IH]; [reflexivity |].
  rewrite for_pure_S, IH by lia. unfold compare_step.
  destruct (Nat.leb_spec n k) as [Hle | Hgt].
  - destruct (Nat.eq_dec n k) as [-> | Hne].
    + apply Z.eqb_neq in Hdiff. rewrite Hdiff. cbn [Z.eqb].
      destruct (Nat.leb_spec (S k) k); [lia |]. f_equal. lia.
    + rewrite (Hsame n) by lia. rewrite Z.eqb_refl.
      destruct (Nat.leb_spec (S n) k); [| lia]. f_equal. lia.
  - rewrite (Hsame n) by lia. rewrite Z.eqb_refl.
    destruct (Nat.leb_spec (S n) k); [lia |]. f_equal. lia.
Qed.

(** C9. When the read-back array differs from the pattern at index [k]
    and nowhere else, the comparison gives [matches = 195] and
    [first_mismatch = k], and the report prints [k], the pattern word at
    [k] as the expected value and the read-back word at [k] as the value
    got. *)
Theorem single_corruption_detected (read_image test_image : list Z)
    (k : nat) (m : machine) :
  length read_image = 196%nat -> length test_image = 196%nat ->
  (k < 196)%nat ->
  read_image !!! k <> test_image !!! k ->
  (forall i : nat, (i < 196)%nat -> i <> k ->
     read_image !!! i = test_image !!! i) ->
  verify read_image test_image = (196 - 1, Z.of_nat k) /\
  exists m',
    (let '(matches, first_mismatch) := verify read_image test_image in
     report matches first_mismatch test_image read_image) m = Some (tt, m') /\
    console m' =
      console m
        ++ [OutStr "  Matching words: "; OutDec 195; OutStr " / 196\n\n";
            OutStr "✗ FAIL: Mismatch detected\n";
            OutStr "  Mismatches: "; OutDec 1; OutStr "\n";
            OutStr "  First mismatch at word "; OutDec (Z.of_nat k);
            OutStr ":\n";
            OutStr "    Expected: 0x"; OutHex (test_image !!! k) 8;
            OutStr "\n";
            OutStr "    Got: 0x"; OutHex (read_image !!! k) 8;
            OutStr "\n"].
Proof.
  intros _ _ Hk Hdiff Hsame.
  assert (Hv : verify read_image test_image = (195, Z.of_nat k)).
  { unfold verify. rewrite (compare_one_off _ _ k 196) by (assumption || lia).
    destruct (Nat.leb_spec 196 k); [lia | reflexivity]. }
  split; [exact Hv |]. rewrite Hv. eexists. split; [apply report_run |].
  cbn [console]. change (195 =? 196) with false. cbn iota.
  destruct (Z.eqb_spec (Z.of_nat k) (-1)) as [Hneg | _]; [lia |].
  rewrite Nat2Z.id. reflexivity.
Qed.

Lemma single_corruption_detected_witness :
  verify (<[7%nat := 0]> (generate (replicate 196 0)))
         (generate (replicate 196 0)) = (196 - 1, Z.of_nat 7) /\
  exists m',
    (let '(matches, first_mismatch) :=
       verify (<[7%nat := 0]> (generate (replicate 196 0)))
              (generate (replicate 196 0)) in
     report matches first_mismatch (generate (replicate 196 0))
            (<[7%nat := 0]> (generate (replicate 196 0))))
      (Machine (fun _ => 0) (fun _ => 0) [] []) = Some (tt, m') /\
    console m' =
      console (Machine (fun _ => 0) (fun _ => 0) [] [])
        ++ [OutStr "  Matching words: "; OutDec 195; OutStr " / 196\n\n";
            OutStr "✗ FAIL: Mismatch detected\n";
            OutStr "  Mismatches: "; OutDec 1; OutStr "\n";
            OutStr "  First mismatch at word "; OutDec (Z.of_nat 7);
            OutStr ":\n";
            OutStr "    Expected: 0x";
            OutHex (generate (replicate 196 0) !!! 7%nat) 8;
            OutStr "\n";
            OutStr "    Got: 0x";
            OutHex (<[7%nat := 0]> (generate (replicate 196 0)) !!! 7%nat) 8;
            OutStr "\n"].
Proof.
  apply (single_corruption_detected
           (<[7%nat := 0]> (generate (replicate 196 0)))
           (generate (replicate 196 0)) 7
           (Machine (fun _ => 0) (fun _ => 0) [] [])).
  - reflexivity.
  - reflexivity.
  - lia.
  - vm_compute. discriminate.
  - intros i Hi Hne. rewrite list_lookup_total_insert_ne by congruence.
    reflexivity.
Defined.

(** What STEP 1 does to the machine. *)
Lemma configure_run (m : machine) :
  configure m =
  Some ((SECURE_ADDR, SECURE_SIZE, 1), Machine
    (<[CSR_SMZ_ENABLE := 1]>
       (<[CSR_SMZ_SIZE := SECURE_SIZE]>
          (<[CSR_SMZ_BASE := SECURE_ADDR]> (csrs m))))
    (ram m)
    (trace m ++ [EvCsrWrite CSR_SMZ_BASE SECURE_ADDR;
                 EvCsrWrite CSR_SMZ_SIZE SECURE_SIZE;
                 EvCsrWrite CSR_SMZ_ENABLE 1;
                 EvCsrRead CSR_SMZ_BASE;
                 EvCsrRead CSR_SMZ_SIZE;
                 EvCsrRead CSR_SMZ_ENABLE])
    (console m ++ [OutStr "STEP 1: Configure SMZ CSRs\n"])).
Proof.
  destruct m as [c r t o]. unfold configure. run_io.
  change (to_u32 SECURE_ADDR) with SECURE_ADDR.
  change (to_u32 SECURE_SIZE) with SECURE_SIZE.
  change (to_u32 1) with 1.
  rewrite !(fn_lookup_insert_ne _ CSR_SMZ_ENABLE) by discriminate.
  rewrite (fn_lookup_insert_ne _ CSR_SMZ_SIZE CSR_SMZ_BASE) by discriminate.
  rewrite !fn_lookup_insert. reflexivity.
Qed.

Section RoundTrip.
Variable smz : engine.
Hypothesis smz_lossless :
  forall (c : Z -> Z) (a w : Z), decrypt smz c a (encrypt smz c a w) = w.

(** STEP 3 leaves, at word [k] of the window, the encryption of pattern
    word [k]; CSRs and console are not touched. *)
Lemma write_image_run (test_image : list Z) (m : machine) :
  exists m',
    write_image smz SECURE_ADDR test_image m = Some (tt, m') /\
    csrs m' = csrs m /\ console m' = console m /\
    forall k : nat, (k < 196)%nat ->
      ram m' (SECURE_ADDR + 4 * Z.of_nat k) =
      encrypt smz (csrs m) (SECURE_ADDR + 4 * Z.of_nat k) (test_image !!! k).
Proof.
  destruct (for_loop_inv
    (fun j (_ : unit) m' =>
       csrs m' = csrs m /\ console m' = console m /\
       forall k : nat, (k < j)%nat ->
         ram m' (SECURE_ADDR + 4 * Z.of_nat k) =
         encrypt smz (csrs m) (SECURE_ADDR + 4 * Z.of_nat k) (test_image !!! k))
    (fun i _ => secure_store smz SECURE_ADDR i (test_image !!! i))
    196 tt m) as ([] & m' & Hrun & Hinv).
  - split; [reflexivity |]. split; [reflexivity |]. intros k Hk. lia.
  - intros j [] m1 Hj (Hc & Ho & Hram).
    unfold secure_store, store, NULL, SECURE_ADDR.
    destruct (Z.eqb_spec (0x10000 + 4 * Z.of_nat j) 0) as [H0 | _]; [lia |].
    eexists tt, _. split; [reflexivity |]. cbn [csrs ram console].
    split; [exact Hc |]. split; [exact Ho |]. intros k Hk.
    destruct (Nat.eq_dec k j) as [-> | Hne].
    + rewrite fn_lookup_insert, Hc. reflexivity.
    + rewrite fn_lookup_insert_ne by lia. apply Hram. lia.
  - exists m'. split; [exact Hrun | exact Hinv].
Qed.

(** STEP 4, run on a RAM that holds the encrypted words, fills
    [read_image] with the words that were written. *)
Lemma read_back_run (test_image read_image : list Z) (c0 : Z -> Z)
    (m : machine) :
  length test_image = 196%nat -> length read_image = 196%nat ->
  csrs m = c0 ->
  (forall k : nat, (k < 196)%nat ->
     ram m (SECURE_ADDR + 4 * Z.of_nat k) =
     encrypt smz c0 (SECURE_ADDR + 4 * Z.of_nat k) (test_image !!! k)) ->
  exists m',
    read_back smz SECURE_ADDR read_image m = Some (test_image, m') /\
    csrs m' = csrs m /\ console m' = console m.
Proof.
  intros Hlt Hlr Hc0 Hram.
  destruct (for_loop_inv
    (fun j (img : list Z) m' =>
       csrs m' = csrs m /\ ram m' = ram m /\ console m' = console m /\
       length img = 196%nat /\
       forall k : nat, (k < j)%nat -> img !! k = Some (test_image !!! k))
    (fun i img => w ← secure_load smz SECURE_ADDR i; mret (<[i := w]> img))
    196 read_image m) as (img & m' & Hrun & Hc & _ & Ho & Hlen & Himg).
  - repeat (split; [reflexivity || exact Hlr |]). intros k Hk. lia.
  - intros j img m1 Hj (Hc & Hr & Ho & Hlen & Himg).
    unfold secure_load, load, NULL, mbind, M_bind, bind, mret, M_ret, ret.
    destruct (Z.eqb_spec (SECURE_ADDR + 4 * Z.of_nat j) 0) as [H0 | _];
      [unfold SECURE_ADDR in H0; lia |].
    eexists _, _. split; [reflexivity |]. cbn [csrs ram console].
    repeat (split; [assumption |]).
    split; [rewrite length_insert; exact Hlen |]. intros k Hk.
    destruct (Nat.eq_dec k j) as [-> | Hne].
    + rewrite list_lookup_insert_eq by lia.
      rewrite Hr, Hc, Hc0, Hram, smz_lossless by lia. reflexivity.
    + rewrite list_lookup_insert_ne by lia. apply Himg. lia.
  - exists m'. split; [| split; assumption].
    unfold read_back. rewrite Hrun. do 2 f_equal. apply list_eq. intros i.
    destruct (Nat.lt_ge_cases i 196) as [Hi | Hi].
    + rewrite Himg by exact Hi. symmetry.
      apply list_lookup_lookup_total_lt. lia.
    + rewrite !lookup_ge_None_2 by lia. reflexivity.
Qed.

Lemma verify_same (a : list Z) : verify a a = (196, -1).
Proof. unfold verify. rewrite compare_same. reflexivity. Qed.

Lemma generate_first (test_image0 : list Z) :
  length test_image0 = 196%nat -> generate test_image0 !!! 0%nat = 0xAABB0000.
Proof.
  intros Hlt. apply list_lookup_total_correct.
  rewrite generate_lookup by (assumption || lia). reflexivity.
Qed.

(** A whole run of [smz_test] behind a lossless SMZ unit: it runs to
    completion and prints the passing transcript. *)
Lemma smz_test_run (test_image0 read_image0 : list Z) (m : machine) :
  length test_image0 = 196%nat -> length read_image0 = 196%nat ->
  exists m',
    smz_test smz test_image0 read_image0 m = Some (tt, m') /\
    console m' =
      console m
        ++ [OutStr "\n"; OutStr "====================================\n";
            OutStr "SMZ Pipeline Test\n";
            OutStr "28x28 Image Encryption Verification\n";
            OutStr "====================================\n\n";
            OutStr "STEP 1: Configure SMZ CSRs\n";
            OutStr "  Base: 0x"; OutHex 0x10000 8;
            OutStr "  Size: 0x"; OutHex 0x1000 8;
            OutStr "  Enable: "; OutDec 1; OutStr "\n\n";
            OutStr "STEP 2: Generate 28x28 Test Image (784 bytes)\n";
            OutStr "  Generated pattern. First word: 0x";
            OutHex 0xAABB0000 8; OutStr "\n\n";
            OutStr "STEP 3: Write Image to Secure Memory (encrypted on write)\n";
            OutStr "  Wrote 196 words to 0x"; OutHex 0x10000 8;
            OutStr " (data gets encrypted by SMZ)\n\n";
            OutStr "STEP 4: Read Back from Secure Memory (decrypted on read)\n";
            OutStr "  Read 196 words from secure memory\n\n";
            OutStr "STEP 5: Verify Data Integrity\n";
            OutStr "  Matching words: "; OutDec 196; OutStr " / 196\n\n";
            OutStr "✓ PASS: ALL DATA MATCHED!\n";
            OutStr "  SMZ encrypted data on write and decrypted on read correctly.\n";
            OutStr "  Pipeline verification SUCCESSFUL.\n";
            OutStr "\n====================================\n";
            OutStr "Test Complete\n";
            OutStr "====================================\n\n"].
Proof.
  intros Hlt Hlr. destruct m as [c r t o]. unfold smz_test.
  run_io. rewrite configure_run. cbn [csrs ram trace console]. run_io.
  match goal with
  | |- context [write_image smz SECURE_ADDR ?ti ?m0] =>
      destruct (write_image_run ti m0) as ([c1 r1 t1 o1] & Hw & Hc1 & Ho1 & Hr1)
  end.
  cbn [csrs console ram] in Hc1, Ho1, Hr1. subst c1 o1. rewrite Hw.
  match goal with
  | |- context [read_back smz SECURE_ADDR ?ri ?m0] =>
      destruct (read_back_run (generate test_image0) ri (csrs m0) m0)
        as ([c2 r2 t2 o2] & Hrd & Hc2 & Ho2);
        [apply generate_length, Hlt | exact Hlr | reflexivity | exact Hr1 |]
  end.
  cbn [csrs console ram] in Hc2, Ho2. subst c2 o2. rewrite Hrd.
  rewrite verify_same, report_run. cbn [csrs ram trace console].
  change (196 =? 196) with true. cbn iota.
  eexists. split; [reflexivity |]. cbn [console].
  repeat rewrite <- app_assoc. cbn [app].
  rewrite generate_first by exact Hlt. reflexivity.
Qed.

(** C8. Behind an SMZ unit whose decryption undoes its encryption, the
    196 pattern words written to the window are the 196 words read
    back, the comparison gives [matches = 196] and no first mismatch
    (-1), and the whole test runs to completion and prints the passing
    transcript. Whatever the counts, the report prints the PASS line
    exactly when [matches = 196] and the FAIL line otherwise. *)
Theorem round_trip_passes (test_image0 read_image0 : list Z) (m : machine) :
  length test_image0 = 196%nat -> length read_image0 = 196%nat ->
  (exists m1 read_image m2,
     write_image smz SECURE_ADDR (generate test_image0) m = Some (tt, m1) /\
     read_back smz SECURE_ADDR read_image0 m1 = Some (read_image, m2) /\
     read_image = generate test_image0 /\
     verify read_image (generate test_image0) = (196, -1)) /\
  (exists m',
     smz_test smz test_image0 read_image0 m = Some (tt, m') /\
     console m' =
       console m
         ++ [OutStr "\n"; OutStr "====================================\n";
             OutStr "SMZ Pipeline Test\n";
             OutStr "28x28 Image Encryption Verification\n";
             OutStr "====================================\n\n";
             OutStr "STEP 1: Configure SMZ CSRs\n";
             OutStr "  Base: 0x"; OutHex 0x10000 8;
             OutStr "  Size: 0x"; OutHex 0x1000 8;
             OutStr "  Enable: "; OutDec 1; OutStr "\n\n";
             OutStr "STEP 2: Generate 28x28 Test Image (784 bytes)\n";
             OutStr "  Generated pattern. First word: 0x";
             OutHex 0xAABB0000 8; OutStr "\n\n";
             OutStr "STEP 3: Write Image to Secure Memory (encrypted on write)\n";
             OutStr "  Wrote 196 words to 0x"; OutHex 0x10000 8;
             OutStr " (data gets encrypted by SMZ)\n\n";
             OutStr "STEP 4: Read Back from Secure Memory (decrypted on read)\n";
             OutStr "  Read 196 words from secure memory\n\n";
             OutStr "STEP 5: Verify Data Integrity\n";
             OutStr "  Matching words: "; OutDec 196; OutStr " / 196\n\n";
             OutStr "✓ PASS: ALL DATA MATCHED!\n";
             OutStr "  SMZ encrypted data on write and decrypted on read correctly.\n";
             OutStr "  Pipeline verification SUCCESSFUL.\n";
             OutStr "\n====================================\n";
             OutStr "Test Complete\n";
             OutStr "====================================\n\n"]) /\
  (forall (matches first_mismatch : Z) (test_image read_image : list Z)
          (m0 : machine),
     exists m' lines,
       report matches first_mismatch test_image read_image m0 = Some (tt, m') /\
       console m' = console m0 ++ lines /\
       (OutStr "✓ PASS: ALL DATA MATCHED!\n" ∈ lines <-> matches = 196) /\
       (OutStr "✗ FAIL: Mismatch detected\n" ∈ lines <-> matches <> 196)).
Proof.
  intros Hlt Hlr. split; [| split].
  - destruct (write_image_run (generate test_image0) m)
      as (m1 & Hw & Hc1 & _ & Hr1).
    destruct (read_back_run (generate test_image0) read_image0 (csrs m) m1)
      as (m2 & Hrd & _); [apply generate_length, Hlt | assumption .. |].
    exists m1, (generate test_image0), m2.
    repeat (split; [assumption || reflexivity |]). apply verify_same.
  - destruct (smz_test_run test_image0 read_image0 m Hlt Hlr) as (m' & Hrun & Ho).
    exists m'. split; [exact Hrun | exact Ho].
  - intros matches first_mismatch test_image read_image m0.
    eexists _, _. split; [apply report_run |]. split; [reflexivity |].
    destruct (Z.eqb_spec matches 196) as [-> | Hne];
      [| destruct (first_mismatch =? -1)]; cbn [app];
      (split; split; intros H; try reflexivity; try contradiction;
       try exact Hne; try (exfalso; no_such_line H); has_line).
Qed.

End RoundTrip.

Lemma round_trip_passes_witness :
  exists m1 read_image m2,
    write_image (Engine (fun c a w => Z.lxor w (c 0x200 + a))
                        (fun c a w => Z.lxor w (c 0x200 + a)))
      SECURE_ADDR (generate (replicate 196 0))
      (Machine (fun _ => 0) (fun _ => 0) [] []) = Some (tt, m1) /\
    read_back (Engine (fun c a w => Z.lxor w (c 0x200 + a))
                      (fun c a w => Z.lxor w (c 0x200 + a)))
      SECURE_ADDR (replicate 196 0) m1 = Some (read_image, m2) /\
    read_image = generate (replicate 196 0) /\
    verify read_image (generate (replicate 196 0)) = (196, -1).
Proof.
  apply (round_trip_passes
           (Engine (fun c a w => Z.lxor w (c 0x200 + a))
                   (fun c a w => Z.lxor w (c 0x200 + a)))).
  - intros c a w. cbn [encrypt decrypt].
    rewrite Z.lxor_assoc, Z.lxor_nilpotent, Z.lxor_0_r. reflexivity.
  - reflexivity.
  - reflexivity.
Defined.

(** C5, as the code has it. STEP 1 of the test never faults and never
    aborts: it writes 0x10000 to BASE, 0x1000 to SIZE and 1 to ENABLE
    directly, in that order, with no disabling write and no settle loop
    before them, and reads the three CSRs back. The CSR contents it
    leaves are those [smz_init(0x10000, 0x1000, 1)] leaves. *)
Theorem harness_configures_directly (m : machine) :
  exists m',
    configure m = Some ((SECURE_ADDR, SECURE_SIZE, 1), m') /\
    trace m' = trace m ++ [EvCsrWrite CSR_SMZ_BASE 0x10000;
                           EvCsrWrite CSR_SMZ_SIZE 0x1000;
                           EvCsrWrite CSR_SMZ_ENABLE 1;
                           EvCsrRead CSR_SMZ_BASE;
                           EvCsrRead CSR_SMZ_SIZE;
                           EvCsrRead CSR_SMZ_ENABLE] /\
    exists m'',
      SmzCsr.smz_init SECURE_ADDR SECURE_SIZE 1 m = Some (0, m'') /\
      forall csr : Z, csrs m'' csr = csrs m' csr.
Proof.
  eexists. split; [apply configure_run |]. split; [reflexivity |].
  eexists. split; [apply ConfigFacts.smz_init_run; reflexivity |].
  intros csr. cbn [csrs truthy Z.eqb negb].
  change (to_u32 SECURE_ADDR) with SECURE_ADDR.
  change (to_u32 SECURE_SIZE) with SECURE_SIZE.
  unfold SmzCsr.CSR_SMZ_ENABLE, SmzCsr.CSR_SMZ_SIZE, SmzCsr.CSR_SMZ_BASE,
    CSR_SMZ_ENABLE, CSR_SMZ_SIZE, CSR_SMZ_BASE.
  destruct (Z.eq_dec csr 0x202) as [-> | He];
    [rewrite !fn_lookup_insert; reflexivity |].
  rewrite !(fn_lookup_insert_ne _ 0x202 csr) by congruence.
  destruct (Z.eq_dec csr 0x201) as [-> | Hs];
    [rewrite !fn_lookup_insert; reflexivity |].
  rewrite !(fn_lookup_insert_ne _ 0x201 csr) by congruence.
  destruct (Z.eq_dec csr 0x200) as [-> | Hb];
    [rewrite !fn_lookup_insert; reflexivity |].
  rewrite !(fn_lookup_insert_ne _ 0x200 csr) by congruence.
  rewrite (fn_lookup_insert_ne _ 0x202 csr) by congruence. reflexivity.
Qed.

(** C5, as the specification has it, does not hold: started on a machine
    with all CSRs 0, the CSR writes of STEP 1 are not those of a call of
    [smz_init(0x10000, 0x1000, 1)]; the first of them is a write to BASE,
    where [smz_init] first writes 0 to ENABLE. *)
Lemma harness_bypasses_smz_init :
  csr_writes (run_trace configure (Machine (fun _ => 0) (fun _ => 0) [] []))
    = [(0x200, 0x10000); (0x201, 0x1000); (0x202, 1)] /\
  csr_writes (run_trace (SmzCsr.smz_init SECURE_ADDR SECURE_SIZE 1)
                        (Machine (fun _ => 0) (fun _ => 0) [] []))
    = [(0x202, 0); (0x200, 0x10000); (0x201, 0x1000); (0x202, 1)] /\
  csr_writes (run_trace configure (Machine (fun _ => 0) (fun _ => 0) [] []))
    <> csr_writes (run_trace (SmzCsr.smz_init SECURE_ADDR SECURE_SIZE 1)
                             (Machine (fun _ => 0) (fun _ => 0) [] [])).
Proof.
  split; [reflexivity |]. split; [reflexivity |]. discriminate.
Qed.

End TestFacts.

(** ** More on the configuration manager *)

Module ConfigExtra.
Import Word Hw WordFacts SmzCsr ValidationFacts ConfigFacts Tactics.

Lemma valid_geometry (base size : Z) :
  is_u32 size -> base mod 4 = 0 -> 0 < size -> is_pow2 size ->
  misaligned base = false /\ bad_size size = false.
Proof.
  intros Hs Ha Hpos Hp. split; [apply misaligned_false, Ha |].
  apply bad_size_false; auto.
Qed.

Lemma insert3_other (c : Z -> Z) (b s e0 e1 csr : Z) (en : bool) :
  csr <> CSR_SMZ_BASE -> csr <> CSR_SMZ_SIZE -> csr <> CSR_SMZ_ENABLE ->
  (if en then <[CSR_SMZ_ENABLE := e1]> else id)
    (<[CSR_SMZ_SIZE := s]> (<[CSR_SMZ_BASE := b]> (<[CSR_SMZ_ENABLE := e0]> c)))
    csr = c csr.
Proof.
  intros Hb Hs He. destruct en; cbn [id];
    rewrite ?(fn_lookup_insert_ne _ CSR_SMZ_ENABLE csr) by congruence;
    rewrite (fn_lookup_insert_ne _ CSR_SMZ_SIZE csr) by congruence;
    rewrite (fn_lookup_insert_ne _ CSR_SMZ_BASE csr) by congruence;
    rewrite (fn_lookup_insert_ne _ CSR_SMZ_ENABLE csr) by congruence;
    reflexivity.
Qed.

Lemma insert3_base (c : Z -> Z) (b s e0 e1 : Z) (en : bool) :
  (if en then <[CSR_SMZ_ENABLE := e1]> else id)
    (<[CSR_SMZ_SIZE := s]> (<[CSR_SMZ_BASE := b]> (<[CSR_SMZ_ENABLE := e0]> c)))
    CSR_SMZ_BASE = b.
Proof.
  destruct en; cbn [id];
    rewrite ?(fn_lookup_insert_ne _ CSR_SMZ_ENABLE CSR_SMZ_BASE) by discriminate;
    rewrite (fn_lookup_insert_ne _ CSR_SMZ_SIZE CSR_SMZ_BASE) by discriminate;
    apply fn_lookup_insert.
Qed.

Lemma insert3_size (c : Z -> Z) (b s e0 e1 : Z) (en : bool) :
  (if en then <[CSR_SMZ_ENABLE := e1]> else id)
    (<[CSR_SMZ_SIZE := s]> (<[CSR_SMZ_BASE := b]> (<[CSR_SMZ_ENABLE := e0]> c)))
    CSR_SMZ_SIZE = s.
Proof.
  destruct en; cbn [id];
    rewrite ?(fn_lookup_insert_ne _ CSR_SMZ_ENABLE CSR_SMZ_SIZE) by discriminate;
    apply fn_lookup_insert.
Qed.

Lemma insert3_enable (c : Z -> Z) (b s e0 e1 : Z) (en : bool) :
  (if en then <[CSR_SMZ_ENABLE := e1]> else id)
    (<[CSR_SMZ_SIZE := s]> (<[CSR_SMZ_BASE := b]> (<[CSR_SMZ_ENABLE := e0]> c)))
    CSR_SMZ_ENABLE = if en then e1 else e0.
Proof.
  destruct en; cbn [id]; [apply fn_lookup_insert |].
  rewrite (fn_lookup_insert_ne _ CSR_SMZ_SIZE CSR_SMZ_ENABLE) by discriminate.
  rewrite (fn_lookup_insert_ne _ CSR_SMZ_BASE CSR_SMZ_ENABLE) by discriminate.
  apply fn_lookup_insert.
Qed.

(** X1. A [smz_reconfigure] that passes validation leaves [new_base] in
    BASE and [new_size] in SIZE, and touches neither the RAM nor the
    console. *)
Theorem reconfigure_updates_geometry (new_base new_size : Z) (m : machine) :
  is_u32 new_base -> is_u32 new_size ->
  new_base mod 4 = 0 -> 0 < new_size -> is_pow2 new_size ->
  exists m',
    smz_reconfigure new_base new_size m = Some (0, m') /\
    run_value smz_read_base m' = Some new_base /\
    run_value smz_read_size m' = Some new_size /\
    ram m' = ram m /\ console m' = console m.
Proof.
  intros Hb Hs Ha Hpos Hp.
  destruct (valid_geometry new_base new_size Hs Ha Hpos Hp) as [Hm Hbs].
  eexists. split; [apply smz_reconfigure_run; assumption |].
  rewrite !to_u32_small by assumption. run_bits.
  rewrite insert3_base, insert3_size. repeat split; reflexivity.
Qed.

Lemma reconfigure_updates_geometry_witness :
  exists m',
    smz_reconfigure 0x20000 0x2000
      (Machine (<[0x202 := 1]> (fun _ => 0)) (fun _ => 5) [] []) = Some (0, m') /\
    run_value smz_read_base m' = Some 0x20000 /\
    run_value smz_read_size m' = Some 0x2000 /\
    ram m' = ram (Machine (<[0x202 := 1]> (fun _ => 0)) (fun _ => 5) [] []) /\
    console m' = console (Machine (<[0x202 := 1]> (fun _ => 0)) (fun _ => 5) [] []).
Proof.
  apply (reconfigure_updates_geometry 0x20000 0x2000).
  - unfold is_u32. lia.
  - unfold is_u32. lia.
  - reflexivity.
  - lia.
  - exists 13. split; [lia | reflexivity].
Defined.

(** X2. With valid geometry [smz_reconfigure] returns 0, and every run of
    it that returns 0 adds to the trace, in this order: the read of ENABLE,
    the write of 0 to ENABLE, the ten spins of the settle loop, the write
    of [base] to BASE, the write of [size] to SIZE, and a write of 1 to
    ENABLE exactly when the low bit of ENABLE was set on entry. *)
Theorem reconfigure_write_order (base size : Z) (m : machine) :
  is_u32 base -> is_u32 size ->
  (base mod 4 = 0 -> 0 < size -> is_pow2 size ->
   exists m', smz_reconfigure base size m = Some (0, m')) /\
  (forall m',
     smz_reconfigure base size m = Some (0, m') ->
     trace m' =
       trace m ++ [EvCsrRead CSR_SMZ_ENABLE; EvCsrWrite CSR_SMZ_ENABLE 0]
         ++ replicate 10 EvSpin
         ++ [EvCsrWrite CSR_SMZ_BASE base; EvCsrWrite CSR_SMZ_SIZE size]
         ++ (if Z.land (csrs m CSR_SMZ_ENABLE) 1 =? 1
             then [EvCsrWrite CSR_SMZ_ENABLE 1] else [])).
Proof.
  intros Hb Hs. split.
  - intros Ha Hpos Hp.
    destruct (valid_geometry base size Hs Ha Hpos Hp) as [Hm Hbs].
    eexists. apply smz_reconfigure_run; assumption.
  - intros m' Hrun.
    destruct (misaligned base) eqn:Ha;
      [unfold smz_reconfigure in Hrun; rewrite Ha in Hrun; discriminate |].
    destruct (bad_size size) eqn:Hs';
      [unfold smz_reconfigure in Hrun; rewrite Ha, Hs' in Hrun; discriminate |].
    rewrite (smz_reconfigure_run base size m Ha Hs') in Hrun.
    rewrite !to_u32_small in Hrun by assumption.
    injection Hrun as <-. cbn [trace].
    destruct (land_1_cases (csrs m CSR_SMZ_ENABLE)) as [-> | ->]; reflexivity.
Qed.

Lemma reconfigure_write_order_witness :
  (0x20000 mod 4 = 0 -> 0 < 0x2000 -> is_pow2 0x2000 ->
   exists m',
     smz_reconfigure 0x20000 0x2000
       (Machine (<[0x202 := 1]> (fun _ => 0)) (fun _ => 0) [] []) = Some (0, m')) /\
  (forall m',
     smz_reconfigure 0x20000 0x2000
       (Machine (<[0x202 := 1]> (fun _ => 0)) (fun _ => 0) [] []) = Some (0, m') ->
     trace m' =
       trace (Machine (<[0x202 := 1]> (fun _ => 0)) (fun _ => 0) [] [])
         ++ [EvCsrRead CSR_SMZ_ENABLE; EvCsrWrite CSR_SMZ_ENABLE 0]
         ++ replicate 10 EvSpin
         ++ [EvCsrWrite CSR_SMZ_BASE 0x20000; EvCsrWrite CSR_SMZ_SIZE 0x2000]
         ++ (if Z.land
                  (csrs (Machine (<[0x202 := 1]> (fun _ => 0)) (fun _ => 0) [] [])
                        CSR_SMZ_ENABLE) 1 =? 1
             then [EvCsrWrite CSR_SMZ_ENABLE 1] else [])).
Proof.
  apply (reconfigure_write_order 0x20000 0x2000).
  - unfold is_u32. lia.
  - unfold is_u32. lia.
Defined.

(** X3. Whatever their arguments, [smz_init] and [smz_reconfigure] run to
    completion and change no CSR other than BASE, SIZE and ENABLE; they
    leave the RAM and the console as they were. *)
Theorem config_frame (base size enable : Z) (m : machine) :
  (exists r m',
     smz_init base size enable m = Some (r, m') /\
     ram m' = ram m /\ console m' = console m /\
     forall csr : Z,
       csr <> CSR_SMZ_BASE -> csr <> CSR_SMZ_SIZE -> csr <> CSR_SMZ_ENABLE ->
       csrs m' csr = csrs m csr) /\
  (exists r m',
     smz_reconfigure base size m = Some (r, m') /\
     ram m' = ram m /\ console m' = console m /\
     forall csr : Z,
       csr <> CSR_SMZ_BASE -> csr <> CSR_SMZ_SIZE -> csr <> CSR_SMZ_ENABLE ->
       csrs m' csr = csrs m csr).
Proof.
  destruct (misaligned base) eqn:Ha; [| destruct (bad_size size) eqn:Hs].
  - unfold smz_init, smz_reconfigure. rewrite Ha. cbn [orb].
    split; exists (-1), m; repeat split; reflexivity.
  - unfold smz_init, smz_reconfigure. rewrite Ha, Hs. cbn [orb].
    split; exists (-1), m; repeat split; reflexivity.
  - split; eexists _, _.
    + split; [apply smz_init_run; assumption |]. cbn [csrs ram console].
      split; [reflexivity |]. split; [reflexivity |].
      intros csr. apply insert3_other.
    + split; [apply smz_reconfigure_run; assumption |]. cbn [csrs ram console].
      split; [reflexivity |]. split; [reflexivity |].
      intros csr. apply insert3_other.
Qed.

(** X4. [smz_init] treats [enable] as a C truth value: after a run that
    passes validation the ENABLE register holds 1 when [enable] is
    non-zero, whatever its value, and 0 when it is zero, and
    [smz_is_enabled()] returns the same. *)
Theorem init_normalises_enable (base size enable : Z) (m : machine) :
  is_u32 size -> base mod 4 = 0 -> 0 < size -> is_pow2 size ->
  exists m',
    smz_init base size enable m = Some (0, m') /\
    csrs m' CSR_SMZ_ENABLE = (if enable =? 0 then 0 else 1) /\
    run_value smz_is_enabled m' = Some (if enable =? 0 then 0 else 1).
Proof.
  intros Hs Ha Hpos Hp.
  destruct (valid_geometry base size Hs Ha Hpos Hp) as [Hm Hbs].
  eexists. split; [apply smz_init_run; assumption |].
  run_bits. rewrite insert3_enable. unfold truthy.
  destruct (enable =? 0); split; reflexivity.
Qed.

Lemma init_normalises_enable_witness :
  exists m',
    smz_init 0x10000 0x1000 (-6) (Machine (fun _ => 0) (fun _ => 0) [] [])
      = Some (0, m') /\
    csrs m' CSR_SMZ_ENABLE = (if -6 =? 0 then 0 else 1) /\
    run_value smz_is_enabled m' = Some (if -6 =? 0 then 0 else 1).
Proof.
  apply (init_normalises_enable 0x10000 0x1000 (-6)).
  - unfold is_u32. lia.
  - reflexivity.
  - lia.
  - exists 12. split; [lia | reflexivity].
Defined.

(** X5. With valid geometry, [smz_reconfigure(base, size)] is
    [smz_init(base, size, smz_is_enabled())]: reading the enabled state and
    passing it to [smz_init] gives the same returned value and the same
    machine, trace included. *)
Theorem reconfigure_is_init_with_current_enable (base size : Z) (m : machine) :
  is_u32 size -> base mod 4 = 0 -> 0 < size -> is_pow2 size ->
  smz_reconfigure base size m =
  (en ← smz_is_enabled; smz_init base size (to_int en)) m.
Proof.
  intros Hs Ha Hpos Hp.
  destruct (valid_geometry base size Hs Ha Hpos Hp) as [Hm Hbs].
  rewrite (smz_reconfigure_run base size m Hm Hbs).
  unfold smz_is_enabled, read_csr, csrrs_read, mbind, M_bind, bind, mret, M_ret, ret.
  rewrite (smz_init_run base size _ _ Hm Hbs), to_int_land_1.
  cbn [csrs ram trace console]. rewrite <- app_assoc. reflexivity.
Qed.

Lemma reconfigure_is_init_with_current_enable_witness :
  smz_reconfigure 0x20000 0x2000
    (Machine (<[0x202 := 1]> (fun _ => 0)) (fun _ => 0) [] []) =
  (en ← smz_is_enabled; smz_init 0x20000 0x2000 (to_int en))
    (Machine (<[0x202 := 1]> (fun _ => 0)) (fun _ => 0) [] []).
Proof.
  apply (reconfigure_is_init_with_current_enable 0x20000 0x2000).
  - unfold is_u32. lia.
  - reflexivity.
  - lia.
  - exists 13. split; [lia | reflexivity].
Defined.

(** *** The bit-set and bit-clear macros *)

Lemma u32_iff_land_ones (x : Z) : is_u32 x <-> Z.land x (Z.ones 32) = x.
Proof.
  unfold is_u32. rewrite Z.land_ones by lia. split.
  - intros Hx. apply Z.mod_small, Hx.
  - intros <-. apply Z.mod_pos_bound. lia.
Qed.

Lemma lor_u32 (a b : Z) : is_u32 a -> is_u32 b -> is_u32 (Z.lor a b).
Proof.
  rewrite !u32_iff_land_ones. intros Ha Hb.
  rewrite Z.land_lor_distr_l, Ha, Hb. reflexivity.
Qed.

Lemma land_lnot_u32 (a b : Z) : is_u32 a -> is_u32 (Z.land a (Z.lnot b)).
Proof.
  rewrite !u32_iff_land_ones. intros Ha.
  rewrite <- Z.land_assoc, (Z.land_comm (Z.lnot b)), Z.land_assoc, Ha.
  reflexivity.
Qed.

Lemma land_lor_lnot (a b : Z) :
  Z.land (Z.lor a b) (Z.lnot b) = Z.land a (Z.lnot b).
Proof.
  apply Z.bits_inj'. intros n Hn.
  rewrite !Z.land_spec, Z.lor_spec, Z.lnot_spec by exact Hn.
  destruct (Z.testbit a n), (Z.testbit b n); reflexivity.
Qed.

Lemma lor_land_lnot (a b : Z) : Z.lor (Z.land a (Z.lnot b)) b = Z.lor a b.
Proof.
  apply Z.bits_inj'. intros n Hn.
  rewrite !Z.lor_spec, Z.land_spec, Z.lnot_spec by exact Hn.
  destruct (Z.testbit a n), (Z.testbit b n); reflexivity.
Qed.

Lemma land_lor_1 (v : Z) : Z.land (Z.lor v 1) 1 = 1.
Proof.
  rewrite Z.land_lor_distr_l. change (Z.land 1 1) with 1.
  destruct (land_1_cases v) as [-> | ->]; reflexivity.
Qed.

Lemma land_lnot_1 (v : Z) : Z.land (Z.land v (Z.lnot 1)) 1 = 0.
Proof. rewrite <- Z.land_assoc. change (Z.land (Z.lnot 1) 1) with 0. apply Z.land_0_r. Qed.

Lemma land_u32_1 (e : Z) : Z.land (to_u32 e) 1 = e mod 2.
Proof.
  unfold to_u32. change 1 with (Z.ones 1). rewrite Z.land_ones by lia.
  change (2 ^ 1) with 2. apply Z.mod_mod_divide. exists (2 ^ 31). reflexivity.
Qed.

(** X6. [smz_write_enable(e)] stores the C truth value of [e]: afterwards
    ENABLE reads 1 when [e] is non-zero and 0 when it is zero, and
    [smz_is_enabled()] agrees. A plain [write_csr(CSR_SMZ_ENABLE, e)]
    instead enables the zone exactly when [e] is odd. *)
Theorem write_enable_normalises (e : Z) (m : machine) :
  run_value (smz_write_enable e;; smz_read_enable) m
    = Some (if e =? 0 then 0 else 1) /\
  run_value (smz_write_enable e;; smz_is_enabled) m
    = Some (if e =? 0 then 0 else 1) /\
  run_value (write_csr CSR_SMZ_ENABLE e;; smz_is_enabled) m = Some (e mod 2).
Proof.
  destruct m as [c r t o]. unfold truthy. run_bits. unfold truthy.
  rewrite !fn_lookup_insert, (land_u32_1 e).
  destruct (e =? 0); repeat split; reflexivity.
Qed.

(** X7. On any CSR, setting the bits of a mask and then clearing them
    leaves what clearing alone leaves; clearing and then setting leaves
    what setting alone leaves; setting twice is setting once. A 32-bit
    register value stays a 32-bit value, and no other CSR changes. *)
Theorem set_clear_bits_compose (csr mask : Z) (m : machine) :
  run_value (set_csr_bits csr mask;; clear_csr_bits csr mask;; read_csr csr) m
    = run_value (clear_csr_bits csr mask;; read_csr csr) m /\
  run_value (clear_csr_bits csr mask;; set_csr_bits csr mask;; read_csr csr) m
    = run_value (set_csr_bits csr mask;; read_csr csr) m /\
  run_value (set_csr_bits csr mask;; set_csr_bits csr mask;; read_csr csr) m
    = run_value (set_csr_bits csr mask;; read_csr csr) m /\
  run_value (set_csr_bits csr mask;; read_csr csr) m
    = Some (Z.lor (csrs m csr) (to_u32 mask)) /\
  run_value (clear_csr_bits csr mask;; read_csr csr) m
    = Some (Z.land (csrs m csr) (Z.lnot (to_u32 mask))) /\
  (is_u32 (csrs m csr) ->
   is_u32 (Z.lor (csrs m csr) (to_u32 mask)) /\
   is_u32 (Z.land (csrs m csr) (Z.lnot (to_u32 mask)))) /\
  (forall other : Z, other <> csr ->
     run_value (set_csr_bits csr mask;; clear_csr_bits csr mask;; read_csr other) m
       = Some (csrs m other)).
Proof.
  destruct m as [c r t o]. run_bits. rewrite !fn_lookup_insert.
  rewrite land_lor_lnot, lor_land_lnot, <- Z.lor_assoc, Z.lor_diag.
  repeat (split; [reflexivity |]). split.
  - intros Hu. split; [apply lor_u32 | apply land_lnot_u32]; try exact Hu.
    apply Z.mod_pos_bound. lia.
  - intros other Hne. rewrite !fn_lookup_insert_ne by congruence. reflexivity.
Qed.

(** X8. The ENABLE bit through the bit macros: [set_csr_bits] with mask 1
    makes [smz_is_enabled()] return 1, [clear_csr_bits] with mask 1 makes
    it return 0, and [read_and_clear_csr] with mask 1 returns the previous
    register value, whose low bit is what [smz_is_enabled()] would have
    returned, and leaves the zone disabled. All three keep the other bits
    of ENABLE, and BASE and SIZE, as they were. *)
Theorem enable_bit_by_set_clear (m : machine) :
  (exists m',
     set_csr_bits CSR_SMZ_ENABLE 1 m = Some (tt, m') /\
     run_value smz_is_enabled m' = Some 1 /\
     Z.land (csrs m' CSR_SMZ_ENABLE) (Z.lnot 1)
       = Z.land (csrs m CSR_SMZ_ENABLE) (Z.lnot 1) /\
     csrs m' CSR_SMZ_BASE = csrs m CSR_SMZ_BASE /\
     csrs m' CSR_SMZ_SIZE = csrs m CSR_SMZ_SIZE) /\
  (exists m',
     clear_csr_bits CSR_SMZ_ENABLE 1 m = Some (tt, m') /\
     run_value smz_is_enabled m' = Some 0 /\
     Z.land (csrs m' CSR_SMZ_ENABLE) (Z.lnot 1)
       = Z.land (csrs m CSR_SMZ_ENABLE) (Z.lnot 1) /\
     csrs m' CSR_SMZ_BASE = csrs m CSR_SMZ_BASE /\
     csrs m' CSR_SMZ_SIZE = csrs m CSR_SMZ_SIZE) /\
  (exists m',
     read_and_clear_csr CSR_SMZ_ENABLE 1 m
       = Some (csrs m CSR_SMZ_ENABLE, m') /\
     run_value smz_is_enabled m = Some (Z.land (csrs m CSR_SMZ_ENABLE) 1) /\
     run_value smz_is_enabled m' = Some 0 /\
     Z.land (csrs m' CSR_SMZ_ENABLE) (Z.lnot 1)
       = Z.land (csrs m CSR_SMZ_ENABLE) (Z.lnot 1) /\
     csrs m' CSR_SMZ_BASE = csrs m CSR_SMZ_BASE /\
     csrs m' CSR_SMZ_SIZE = csrs m CSR_SMZ_SIZE).
Proof.
  destruct m as [c r t o].
  split; [| split]; eexists; (split; [reflexivity |]); run_bits;
    change (to_u32 1) with 1;
    rewrite ?fn_lookup_insert, ?land_lor_1, ?land_lnot_1, ?land_lor_lnot;
    rewrite <- ?Z.land_assoc, ?Z.land_diag;
    rewrite ?(fn_lookup_insert_ne _ CSR_SMZ_ENABLE CSR_SMZ_BASE) by discriminate;
    rewrite ?(fn_lookup_insert_ne _ CSR_SMZ_ENABLE CSR_SMZ_SIZE) by discriminate;
    repeat split; reflexivity.
Qed.

(** *** [smz_print_config] *)


(** X10. After a [smz_init(base, size, enable)] that passes validation,
    [smz_print_config] prints [base] as the base address, [size] twice as
    the region size, and the status ENABLED when [enable] is non-zero,
    DISABLED when it is zero. *)
Theorem print_config_after_init (base size enable : Z) (m : machine) :
  is_u32 base -> is_u32 size ->
  base mod 4 = 0 -> 0 < size -> is_pow2 size ->
  exists m1 m2,
    smz_init base size enable m = Some (0, m1) /\
    smz_print_config m1 =
    Some ([Printf "SMZ Configuration:\n" [];
           Printf "  Base Address: 0x%08x\n" [ArgWord base];
           Printf "  Region Size:  0x%08x (%u bytes)\n"
                  [ArgWord size; ArgWord size];
           Printf "  Status:       %s\n"
                  [ArgStr (if enable =? 0 then "DISABLED" else "ENABLED")]],
          m2).
Proof.
  intros Hb Hs Ha Hpos Hp.
  destruct (valid_geometry base size Hs Ha Hpos Hp) as [Hm Hbs].
  destruct m as [c r t o]. destruct (enable =? 0) eqn:He;
    (eexists _, _; split; [apply smz_init_run; assumption |]);
    rewrite !to_u32_small by assumption; run_bits;
    rewrite insert3_base, insert3_size, insert3_enable, to_int_land_1;
    unfold truthy; rewrite He; reflexivity.
Qed.

Lemma print_config_after_init_witness :
  exists m1 m2,
    smz_init 0x10000 0x1000 1 (Machine (fun _ => 0) (fun _ => 0) [] [])
      = Some (0, m1) /\
    smz_print_config m1 =
    Some ([Printf "SMZ Configuration:\n" [];
           Printf "  Base Address: 0x%08x\n" [ArgWord 0x10000];
           Printf "  Region Size:  0x%08x (%u bytes)\n"
                  [ArgWord 0x1000; ArgWord 0x1000];
           Printf "  Status:       %s\n"
                  [ArgStr (if 1 =? 0 then "DISABLED" else "ENABLED")]],
          m2).
Proof.
  apply (print_config_after_init 0x10000 0x1000 1).
  - unfold is_u32. lia.
  - unfold is_u32. lia.
  - reflexivity.
  - lia.
  - exists 12. split; [lia | reflexivity].
Defined.

End ConfigExtra.

(** ** More on the pipeline test *)

Module TestExtra.
Import Word Hw WordFacts LoopFacts SmzTest TestFacts Tactics.

(** *** The pattern *)

Lemma pattern_word_low_byte (i : Z) : pattern_word i = pattern_word (i mod 256).
Proof.
  unfold pattern_word. change 0xFF with (Z.ones 8).
  rewrite !Z.land_ones by lia. change (2 ^ 8) with 256.
  rewrite Z.mod_mod by lia. reflexivity.
Qed.

Lemma pattern_word_byte (n : nat) :
  (n < 256)%nat -> pattern_word (Z.of_nat n) = 0xAABB0000 + 257 * Z.of_nat n.
Proof.
  intros Hn.
  assert (Hall : forallb (fun j =>
      pattern_word (Z.of_nat j) =? 0xAABB0000 + 257 * Z.of_nat j) (seq 0 256) = true)
    by (vm_compute; reflexivity).
  rewrite forallb_forall in Hall. apply Z.eqb_eq, Hall, in_seq. lia.
Qed.

Lemma pattern_word_eq (i : Z) : pattern_word i = 0xAABB0000 + 257 * (i mod 256).
Proof.
  rewrite pattern_word_low_byte.
  pose proof (Z.mod_pos_bound i 256) as Hr.
  rewrite <- (Z2Nat.id (i mod 256)) at 1 by lia.
  rewrite pattern_word_byte by lia. rewrite Z2Nat.id by lia. reflexivity.
Qed.

(** X11. For every index [i] the pattern word is
    [0xAABB0000 + 257 * (i mod 256)]: the high half is 0xAABB and both low
    bytes are the low byte of [i]. So every pattern word is a 32-bit value,
    the pattern repeats with period 256, and two indexes below 256 with the
    same word are equal: the 196 words of the test are pairwise
    distinct. *)
Theorem pattern_word_formula (i j : Z) :
  pattern_word i = 0xAABB0000 + 257 * (i mod 256) /\
  is_u32 (pattern_word i) /\
  pattern_word (i + 256) = pattern_word i /\
  (0 <= i < 256 -> 0 <= j < 256 -> pattern_word i = pattern_word j -> i = j).
Proof.
  pose proof (Z.mod_pos_bound i 256) as Hi.
  split; [apply pattern_word_eq |]. split; [| split].
  - rewrite pattern_word_eq. unfold is_u32. lia.
  - rewrite !pattern_word_eq.
    replace (i + 256) with (i + 1 * 256) by lia. rewrite Z.mod_add by lia.
    reflexivity.
  - intros Hi' Hj. rewrite !pattern_word_eq, !Z.mod_small by lia. lia.
Qed.

(** *** The comparison *)

(** What the STEP 5 loop has computed after [n] words. *)
Lemma compare_spec (read_image test_image : list Z) (n : nat) :
  exists matches first_mismatch,
    for_pure n (compare_step read_image test_image) (0, -1)
      = (matches, first_mismatch) /\
    matches =
      Z.of_nat (length (filter (fun i => read_image !!! i = test_image !!! i)
                               (seq 0 n))) /\
    0 <= matches <= Z.of_nat n /\
    ((first_mismatch = -1 /\ matches = Z.of_nat n /\
      forall i : nat, (i < n)%nat -> read_image !!! i = test_image !!! i)
     \/
     (exists k : nat,
        first_mismatch = Z.of_nat k /\ (k < n)%nat /\ matches < Z.of_nat n /\
        read_image !!! k <> test_image !!! k /\
        forall i : nat, (i < k)%nat -> read_image !!! i = test_image !!! i)).
Proof.
  induction n as [| n (mt & fm & Hrun & Hcount & Hbound & Hcase)].
  - exists 0, (-1). split; [reflexivity |]. split; [reflexivity |].
    split; [lia |]. left. split; [reflexivity |]. split; [reflexivity |].
    intros i Hi. lia.
  - rewrite for_pure_S, Hrun, seq_S, filter_app, length_app. cbn [Nat.add].
    unfold compare_step. rewrite filter_cons, filter_nil.
    destruct (Z.eqb_spec (read_image !!! n) (test_image !!! n)) as [Heq | Hne].
    + rewrite decide_True by exact Heq. cbn [length].
      exists (mt + 1), fm. split; [reflexivity |]. split; [lia |].
      split; [lia |].
      destruct Hcase as [(-> & Hmt & Hall) | (k & -> & Hk & Hmt & Hdiff & Hall)].
      * left. split; [reflexivity |]. split; [lia |]. intros i Hi.
        destruct (Nat.eq_dec i n) as [-> | Hin]; [exact Heq | apply Hall; lia].
      * right. exists k. repeat split; try assumption; lia.
    + rewrite decide_False by exact Hne. cbn [length].
      destruct Hcase as [(-> & Hmt & Hall) | (k & -> & Hk & Hmt & Hdiff & Hall)].
      * exists mt, (Z.of_nat n). cbn [Z.eqb]. split; [reflexivity |].
        split; [lia |]. split; [lia |]. right. exists n.
        repeat split; try assumption; lia.
      * exists mt, (Z.of_nat k).
        destruct (Z.eqb_spec (Z.of_nat k) (-1)) as [Hneg | _]; [lia |].
        split; [reflexivity |]. split; [lia |]. split; [lia |]. right.
        exists k. repeat split; try assumption; lia.
Qed.

(** X12. For any two arrays, the comparison loop returns as [matches] the
    number of indexes below 196 at which they agree, and as
    [first_mismatch] either -1, when they agree at all 196 indexes, or the
    least index at which they differ. *)
Theorem verify_counts_and_locates (read_image test_image : list Z) :
  exists matches first_mismatch,
    verify read_image test_image = (matches, first_mismatch) /\
    matches =
      Z.of_nat (length (filter (fun i => read_image !!! i = test_image !!! i)
                               (seq 0 196))) /\
    0 <= matches <= 196 /\
    ((first_mismatch = -1 /\ matches = 196 /\
      forall i : nat, (i < 196)%nat -> read_image !!! i = test_image !!! i)
     \/
     (exists k : nat,
        first_mismatch = Z.of_nat k /\ (k < 196)%nat /\ matches < 196 /\
        read_image !!! k <> test_image !!! k /\
        forall i : nat, (i < k)%nat -> read_image !!! i = test_image !!! i)).
Proof. apply (compare_spec read_image test_image 196). Qed.

(** The lines of the verdict, for any two arrays. *)
Lemma verdict_lines (read_image test_image : list Z) (m : machine) :
  exists m' lines,
    (let '(matches, first_mismatch) := verify read_image test_image in
     report matches first_mismatch test_image read_image) m = Some (tt, m') /\
    console m' = console m ++ lines /\
    (OutStr "✓ PASS: ALL DATA MATCHED!\n" ∈ lines <->
     forall i : nat, (i < 196)%nat -> read_image !!! i = test_image !!! i) /\
    (OutStr "✗ FAIL: Mismatch detected\n" ∈ lines <->
     exists i : nat, (i < 196)%nat /\ read_image !!! i <> test_image !!! i) /\
    (forall k : nat,
       (k < 196)%nat -> read_image !!! k <> test_image !!! k ->
       (forall i : nat, (i < k)%nat -> read_image !!! i = test_image !!! i) ->
       exists mismatches,
         1 <= mismatches <= 196 /\
         lines =
           [OutStr "  Matching words: "; OutDec (196 - mismatches);
            OutStr " / 196\n\n";
            OutStr "✗ FAIL: Mismatch detected\n";
            OutStr "  Mismatches: "; OutDec mismatches; OutStr "\n";
            OutStr "  First mismatch at word "; OutDec (Z.of_nat k);
            OutStr ":\n";
            OutStr "    Expected: 0x"; OutHex (test_image !!! k) 8;
            OutStr "\n";
            OutStr "    Got: 0x"; OutHex (read_image !!! k) 8;
            OutStr "\n"]).
Proof.
  destruct (compare_spec read_image test_image 196)
    as (mt & fm & Hrun & _ & Hbound & Hcase).
  unfold verify. rewrite Hrun. eexists _, _. split; [apply report_run |].
  split; [reflexivity |].
  destruct Hcase as [(-> & -> & Hall) | (k0 & -> & Hk0 & Hmt & Hdiff & Hall)].
  - change (Z.of_nat 196 =? 196) with true. cbn iota. split; [| split].
    + split; [intros _; exact Hall | intros _; has_line].
    + split; [intros H; exfalso; no_such_line H |].
      intros (i & Hi & Hne). exfalso. apply Hne, Hall, Hi.
    + intros k Hk Hne _. exfalso. apply Hne, Hall, Hk.
  - destruct (Z.eqb_spec mt 196) as [Heq | _];
      [change (Z.of_nat 196) with 196 in Hmt; lia |].
    destruct (Z.eqb_spec (Z.of_nat k0) (-1)) as [Hneg | _]; [lia |].
    cbn [app]. split; [| split].
    + split; [intros H; exfalso; no_such_line H |].
      intros Hall'. exfalso. apply Hdiff, Hall', Hk0.
    + split; [intros _; exists k0; split; assumption | intros _; has_line].
    + intros k Hk Hne Hbefore.
      assert (k = k0) as ->.
      { destruct (Nat.lt_trichotomy k k0) as [Hlt | [Heq | Hgt]];
          [exfalso; apply Hne, Hall, Hlt | exact Heq |
           exfalso; apply Hdiff, Hbefore, Hgt]. }
      exists (196 - mt). change (Z.of_nat 196) with 196 in *.
      split; [lia |]. rewrite Nat2Z.id.
      replace (196 - (196 - mt)) with mt by lia. reflexivity.
Qed.

(** X13. The verdict printed for any two arrays: the PASS line is printed
    exactly when the arrays agree at all 196 indexes, the FAIL line exactly
    when they differ somewhere. On failure the mismatch count printed is at
    least 1, and it is followed by the least index at which the arrays
    differ, the pattern word there as the expected value and the read-back
    word there as the value got. *)
Theorem verdict_of_comparison (read_image test_image : list Z) (m : machine) :
  exists m' lines,
    (let '(matches, first_mismatch) := verify read_image test_image in
     report matches first_mismatch test_image read_image) m = Some (tt, m') /\
    console m' = console m ++ lines /\
    (OutStr "✓ PASS: ALL DATA MATCHED!\n" ∈ lines <->
     forall i : nat, (i < 196)%nat -> read_image !!! i = test_image !!! i) /\
    (OutStr "✗ FAIL: Mismatch detected\n" ∈ lines <->
     exists i : nat, (i < 196)%nat /\ read_image !!! i <> test_image !!! i) /\
    (forall k : nat,
       (k < 196)%nat -> read_image !!! k <> test_image !!! k ->
       (forall i : nat, (i < k)%nat -> read_image !!! i = test_image !!! i) ->
       exists mismatches,
         1 <= mismatches <= 196 /\
         lines =
           [OutStr "  Matching words: "; OutDec (196 - mismatches);
            OutStr " / 196\n\n";
            OutStr "✗ FAIL: Mismatch detected\n";
            OutStr "  Mismatches: "; OutDec mismatches; OutStr "\n";
            OutStr "  First mismatch at word "; OutDec (Z.of_nat k);
            OutStr ":\n";
            OutStr "    Expected: 0x"; OutHex (test_image !!! k) 8;
            OutStr "\n";
            OutStr "    Got: 0x"; OutHex (read_image !!! k) 8;
            OutStr "\n"]).
Proof. apply verdict_lines. Qed.

(** *** The whole run, behind any SMZ unit *)

Section AnyEngine.
Variable smz : engine.

Lemma seq_snoc_fmap {A : Type} (f : nat -> A) (n : nat) :
  f <$> seq 0 (S n) = (f <$> seq 0 n) ++ [f n].
Proof. rewrite seq_S, fmap_app. reflexivity. Qed.

(** STEP 3 behind any unit: 196 stores, in index order; only the 196 words
    of the window change. *)
Lemma write_image_any (test_image : list Z) (m : machine) :
  exists m',
    write_image smz SECURE_ADDR test_image m = Some (tt, m') /\
    csrs m' = csrs m /\ console m' = console m /\
    trace m' =
      trace m ++ ((fun k => EvStore (SECURE_ADDR + 4 * Z.of_nat k)
                     (encrypt smz (csrs m) (SECURE_ADDR + 4 * Z.of_nat k) (test_image !!! k)))
                  <$> seq 0 196) /\
    (forall k : nat, (k < 196)%nat ->
       ram m' (SECURE_ADDR + 4 * Z.of_nat k) =
       encrypt smz (csrs m) (SECURE_ADDR + 4 * Z.of_nat k) (test_image !!! k)) /\
    (forall a : Z, (forall k : nat, (k < 196)%nat -> a <> SECURE_ADDR + 4 * Z.of_nat k) ->
       ram m' a = ram m a).
Proof.
  destruct (for_loop_inv
    (fun j (_ : unit) m' =>
       csrs m' = csrs m /\ console m' = console m /\
       trace m' =
         trace m ++ ((fun k => EvStore (SECURE_ADDR + 4 * Z.of_nat k)
                        (encrypt smz (csrs m) (SECURE_ADDR + 4 * Z.of_nat k) (test_image !!! k)))
                     <$> seq 0 j) /\
       (forall k : nat, (k < j)%nat ->
          ram m' (SECURE_ADDR + 4 * Z.of_nat k) =
          encrypt smz (csrs m) (SECURE_ADDR + 4 * Z.of_nat k) (test_image !!! k)) /\
       (forall a : Z, (forall k : nat, (k < j)%nat -> a <> SECURE_ADDR + 4 * Z.of_nat k) ->
          ram m' a = ram m a))
    (fun i _ => secure_store smz SECURE_ADDR i (test_image !!! i))
    196 tt m) as ([] & m' & Hrun & Hinv).
  - split; [reflexivity |]. split; [reflexivity |].
    split; [cbn; rewrite app_nil_r; reflexivity |].
    split; [intros k Hk; lia | intros a _; reflexivity].
  - intros j [] m1 Hj (Hc & Ho & Ht & Hram & Hframe).
    unfold secure_store, store, NULL, SECURE_ADDR.
    destruct (Z.eqb_spec (0x10000 + 4 * Z.of_nat j) 0) as [H0 | _]; [lia |].
    eexists tt, _. split; [reflexivity |]. cbn [csrs ram console trace].
    split; [exact Hc |]. split; [exact Ho |]. split; [| split].
    + rewrite Ht, seq_snoc_fmap, <- app_assoc, Hc. reflexivity.
    + intros k Hk. destruct (Nat.eq_dec k j) as [-> | Hne].
      * rewrite fn_lookup_insert, Hc. reflexivity.
      * rewrite fn_lookup_insert_ne by lia. apply Hram. lia.
    + intros a Ha. rewrite fn_lookup_insert_ne.
      * apply Hframe. intros k Hk. apply Ha. lia.
      * intros Heq. apply (Ha j); [lia | symmetry; exact Heq].
  - exists m'. split; [exact Hrun | exact Hinv].
Qed.

(** STEP 4 behind any unit: 196 loads, in index order; word [k] read back
    is the decryption of what the RAM holds at word [k]. *)
Lemma read_back_any (read_image : list Z) (m : machine) :
  length read_image = 196%nat ->
  exists m',
    read_back smz SECURE_ADDR read_image m =
      Some ((fun k => decrypt smz (csrs m) (SECURE_ADDR + 4 * Z.of_nat k)
                              (ram m (SECURE_ADDR + 4 * Z.of_nat k)))
              <$> seq 0 196, m') /\
    csrs m' = csrs m /\ ram m' = ram m /\ console m' = console m /\
    trace m' = trace m ++ ((fun k => EvLoad (SECURE_ADDR + 4 * Z.of_nat k)) <$> seq 0 196).
Proof.
  intros Hlr.
  destruct (for_loop_inv
    (fun j (img : list Z) m' =>
       csrs m' = csrs m /\ ram m' = ram m /\ console m' = console m /\
       trace m' = trace m ++ ((fun k => EvLoad (SECURE_ADDR + 4 * Z.of_nat k)) <$> seq 0 j) /\
       img = ((fun k => decrypt smz (csrs m) (SECURE_ADDR + 4 * Z.of_nat k)
                               (ram m (SECURE_ADDR + 4 * Z.of_nat k)))
                <$> seq 0 j) ++ drop j read_image)
    (fun i img => w ← secure_load smz SECURE_ADDR i; mret (<[i := w]> img))
    196 read_image m) as (img & m' & Hrun & Hc & Hr & Ho & Ht & Himg).
  - repeat (split; [reflexivity |]).
    split; [cbn; rewrite app_nil_r; reflexivity | reflexivity].
  - intros j img m1 Hj (Hc & Hr & Ho & Ht & Himg).
    unfold secure_load, load, NULL, mbind, M_bind, bind, mret, M_ret, ret.
    destruct (Z.eqb_spec (SECURE_ADDR + 4 * Z.of_nat j) 0) as [H0 | _];
      [unfold SECURE_ADDR in H0; lia |].
    eexists _, _. split; [reflexivity |]. cbn [csrs ram console trace].
    repeat (split; [assumption |]). split.
    + rewrite Ht, seq_snoc_fmap, <- app_assoc. reflexivity.
    + rewrite Himg, Hc, Hr.
      destruct (lookup_lt_is_Some_2 read_image j) as [x Hx]; [lia |].
      rewrite insert_app_r_alt by (rewrite length_fmap, length_seq; lia).
      rewrite length_fmap, length_seq, Nat.sub_diag, (drop_S _ _ _ Hx).
      rewrite seq_snoc_fmap, <- app_assoc. reflexivity.
  - exists m'. unfold read_back. rewrite Hrun, Himg.
    rewrite drop_ge, app_nil_r by lia. repeat split; assumption.
Qed.

(** The array STEP 4 reads back after STEP 3 has written [test_image],
    under CSR contents [c]. *)
Lemma read_back_after_write (test_image read_image : list Z) (m : machine) :
  length read_image = 196%nat ->
  exists m1 m2,
    write_image smz SECURE_ADDR test_image m = Some (tt, m1) /\
    read_back smz SECURE_ADDR read_image m1 =
      Some ((fun k => decrypt smz (csrs m) (SECURE_ADDR + 4 * Z.of_nat k)
                        (encrypt smz (csrs m) (SECURE_ADDR + 4 * Z.of_nat k)
                                 (test_image !!! k)))
              <$> seq 0 196, m2) /\
    csrs m2 = csrs m /\ console m2 = console m /\
    trace m2 =
      trace m
        ++ ((fun k => EvStore (SECURE_ADDR + 4 * Z.of_nat k)
               (encrypt smz (csrs m) (SECURE_ADDR + 4 * Z.of_nat k)
                        (test_image !!! k))) <$> seq 0 196)
        ++ ((fun k => EvLoad (SECURE_ADDR + 4 * Z.of_nat k)) <$> seq 0 196) /\
    (forall a : Z,
       (forall k : nat, (k < 196)%nat -> a <> SECURE_ADDR + 4 * Z.of_nat k) ->
       ram m2 a = ram m a).
Proof.
  intros Hlr.
  destruct (write_image_any test_image m)
    as (m1 & Hw & Hc1 & Ho1 & Ht1 & Hr1 & Hf1).
  destruct (read_back_any read_image m1 Hlr)
    as (m2 & Hrd & Hc2 & Hr2 & Ho2 & Ht2).
  exists m1, m2. split; [exact Hw |]. split.
  - rewrite Hrd. do 2 f_equal. apply list_eq. intros i.
    rewrite !list_lookup_fmap.
    destruct (seq 0 196 !! i) as [k |] eqn:Hk; [| reflexivity].
    apply lookup_seq in Hk as [-> Hi]. cbn [fmap option_fmap option_map Nat.add].
    rewrite Hc1, Hr1 by exact Hi. reflexivity.
  - split; [congruence |]. split; [congruence |]. split.
    + rewrite Ht2, Ht1, <- app_assoc. reflexivity.
    + intros a Ha. rewrite Hr2. apply Hf1, Ha.
Qed.

(** A whole run of [smz_test] behind any unit. [mr] is the machine on
    which the verdict is printed. *)
Lemma smz_test_any (test_image0 read_image0 : list Z) (m : machine) :
  length test_image0 = 196%nat -> length read_image0 = 196%nat ->
  let c1 := <[CSR_SMZ_ENABLE := 1]>
              (<[CSR_SMZ_SIZE := SECURE_SIZE]>
                 (<[CSR_SMZ_BASE := SECURE_ADDR]> (csrs m))) in
  let read_image :=
    (fun k => decrypt smz c1 (SECURE_ADDR + 4 * Z.of_nat k)
                (encrypt smz c1 (SECURE_ADDR + 4 * Z.of_nat k)
                         (generate test_image0 !!! k))) <$> seq 0 196 in
  exists m' mr mr',
    smz_test smz test_image0 read_image0 m = Some (tt, m') /\
    (let '(matches, first_mismatch) := verify read_image (generate test_image0) in
     report matches first_mismatch (generate test_image0) read_image) mr
      = Some (tt, mr') /\
    console mr =
      console m
        ++ [OutStr "\n"; OutStr "====================================\n";
            OutStr "SMZ Pipeline Test\n";
            OutStr "28x28 Image Encryption Verification\n";
            OutStr "====================================\n\n";
            OutStr "STEP 1: Configure SMZ CSRs\n";
            OutStr "  Base: 0x"; OutHex 0x10000 8;
            OutStr "  Size: 0x"; OutHex 0x1000 8;
            OutStr "  Enable: "; OutDec 1; OutStr "\n\n";
            OutStr "STEP 2: Generate 28x28 Test Image (784 bytes)\n";
            OutStr "  Generated pattern. First word: 0x";
            OutHex 0xAABB0000 8; OutStr "\n\n";
            OutStr "STEP 3: Write Image to Secure Memory (encrypted on write)\n";
            OutStr "  Wrote 196 words to 0x"; OutHex 0x10000 8;
            OutStr " (data gets encrypted by SMZ)\n\n";
            OutStr "STEP 4: Read Back from Secure Memory (decrypted on read)\n";
            OutStr "  Read 196 words from secure memory\n\n";
            OutStr "STEP 5: Verify Data Integrity\n"] /\
    console m' =
      console mr'
        ++ [OutStr "\n====================================\n";
            OutStr "Test Complete\n";
            OutStr "====================================\n\n"] /\
    csrs m' = c1 /\
    trace m' =
      trace m
        ++ [EvCsrWrite CSR_SMZ_BASE SECURE_ADDR;
            EvCsrWrite CSR_SMZ_SIZE SECURE_SIZE;
            EvCsrWrite CSR_SMZ_ENABLE 1;
            EvCsrRead CSR_SMZ_BASE; EvCsrRead CSR_SMZ_SIZE;
            EvCsrRead CSR_SMZ_ENABLE]
        ++ ((fun k => EvStore (SECURE_ADDR + 4 * Z.of_nat k)
               (encrypt smz c1 (SECURE_ADDR + 4 * Z.of_nat k)
                        (generate test_image0 !!! k))) <$> seq 0 196)
        ++ ((fun k => EvLoad (SECURE_ADDR + 4 * Z.of_nat k)) <$> seq 0 196) /\
    (forall a : Z,
       (forall k : nat, (k < 196)%nat -> a <> SECURE_ADDR + 4 * Z.of_nat k) ->
       ram m' a = ram m a).
Proof.
  intros Hlt Hlr c1 read_image. subst c1 read_image.
  destruct m as [c r t o]. unfold smz_test.
  run_io. rewrite configure_run. cbn [csrs ram trace console]. run_io.
  match goal with
  | |- context [write_image smz SECURE_ADDR ?ti ?m0] =>
      destruct (write_image_any ti m0)
        as ([c1 r1 t1 o1] & Hw & Hc1 & Ho1 & Ht1 & Hr1 & Hf1)
  end.
  cbn [csrs console ram trace] in Hc1, Ho1, Ht1, Hr1, Hf1. subst c1 o1 t1.
  rewrite Hw.
  match goal with
  | |- context [read_back smz SECURE_ADDR ?ri ?m0] =>
      destruct (read_back_any ri m0 Hlr)
        as ([c2 r2 t2 o2] & Hrd & Hc2 & Hr2 & Ho2 & Ht2)
  end.
  cbn [csrs console ram trace] in Hrd, Hc2, Hr2, Ho2, Ht2. subst c2 r2 o2 t2.
  rewrite Hrd.
  match goal with
  | |- context [verify ?rb _] =>
      replace rb with
        ((fun k => decrypt smz
                     (<[CSR_SMZ_ENABLE := 1]>
                        (<[CSR_SMZ_SIZE := SECURE_SIZE]>
                           (<[CSR_SMZ_BASE := SECURE_ADDR]> c)))
                     (SECURE_ADDR + 4 * Z.of_nat k)
                     (encrypt smz
                        (<[CSR_SMZ_ENABLE := 1]>
                           (<[CSR_SMZ_SIZE := SECURE_SIZE]>
                              (<[CSR_SMZ_BASE := SECURE_ADDR]> c)))
                        (SECURE_ADDR + 4 * Z.of_nat k)
                        (generate test_image0 !!! k))) <$> seq 0 196)
  end.
  2: { apply list_eq. intros i. rewrite !list_lookup_fmap.
       destruct (seq 0 196 !! i) as [k |] eqn:Hk; [| reflexivity].
       apply lookup_seq in Hk as [-> Hi].
       cbn [fmap option_fmap option_map Nat.add].
       rewrite Hr1 by exact Hi. reflexivity. }
  destruct (verify _ (generate test_image0)) as [mt fm].
  rewrite generate_first by exact Hlt.
  match goal with
  | |- context [report mt fm _ _ ?mm] => eexists _, mm, _
  end.
  rewrite report_run. cbn [csrs ram trace console].
  split; [reflexivity |]. split; [reflexivity |].
  split; [repeat rewrite <- app_assoc; reflexivity |].
  split; [repeat rewrite <- app_assoc; reflexivity |].
  split; [reflexivity |].
  split; [repeat rewrite <- app_assoc; reflexivity |].
  exact Hf1.
Qed.

End AnyEngine.

Lemma elem_of_sandwich (x : out) (pre mid post : list out) :
  x ∉ pre -> x ∉ post -> x ∈ pre ++ mid ++ post <-> x ∈ mid.
Proof.
  intros Hpre Hpost. split; intros H.
  - apply elem_of_app in H as [H | H]; [contradiction |].
    apply elem_of_app in H as [H | H]; [exact H | contradiction].
  - apply elem_of_app. right. apply elem_of_app. left. exact H.
Qed.

Lemma fmap_seq_total (f : nat -> Z) (i : nat) :
  (i < 196)%nat -> (f <$> seq 0 196) !!! i = f i.
Proof.
  intros Hi. apply list_lookup_total_correct.
  rewrite list_lookup_fmap, lookup_seq_lt by exact Hi. reflexivity.
Qed.

Lemma generate_total (test_image0 : list Z) (i : nat) :
  length test_image0 = 196%nat -> (i < 196)%nat ->
  generate test_image0 !!! i = pattern_word (Z.of_nat i).
Proof.
  intros Hlt Hi. apply list_lookup_total_correct, generate_lookup; assumption.
Qed.

(** X14. Behind any SMZ unit the test runs to completion, and it prints
    the PASS line exactly when, under the CSR contents STEP 1 leaves, the
    unit's decryption gives back each of the 196 pattern words from its
    encryption at its window address; it prints the FAIL line exactly when
    some pattern word does not come back. *)
Theorem test_verdict_for_any_unit (smz : engine)
    (test_image0 read_image0 : list Z) (m : machine) :
  length test_image0 = 196%nat -> length read_image0 = 196%nat ->
  exists m' lines,
    smz_test smz test_image0 read_image0 m = Some (tt, m') /\
    console m' = console m ++ lines /\
    (OutStr "✓ PASS: ALL DATA MATCHED!\n" ∈ lines <->
     forall k : nat, (k < 196)%nat ->
       decrypt smz (csrs m') (SECURE_ADDR + 4 * Z.of_nat k)
         (encrypt smz (csrs m') (SECURE_ADDR + 4 * Z.of_nat k)
                  (pattern_word (Z.of_nat k)))
       = pattern_word (Z.of_nat k)) /\
    (OutStr "✗ FAIL: Mismatch detected\n" ∈ lines <->
     exists k : nat, (k < 196)%nat /\
       decrypt smz (csrs m') (SECURE_ADDR + 4 * Z.of_nat k)
         (encrypt smz (csrs m') (SECURE_ADDR + 4 * Z.of_nat k)
                  (pattern_word (Z.of_nat k)))
       <> pattern_word (Z.of_nat k)).
Proof.
  intros Hlt Hlr.
  pose proof (smz_test_any smz test_image0 read_image0 m Hlt Hlr) as Hany.
  cbv zeta in Hany.
  destruct Hany as (m' & mr & mr' & Hrun & Hrep & Hmr & Hm' & Hc & _).
  match type of Hrep with
  | context [verify ?rb ?pat] =>
      destruct (verdict_lines rb pat mr)
        as (mr2 & L & Hrep2 & HL & Hpass & Hfail & _)
  end.
  rewrite Hrep in Hrep2. injection Hrep2 as <-.
  match type of Hmr with
  | _ = _ ++ ?intro =>
      match type of Hm' with
      | _ = _ ++ ?outro => exists m', (intro ++ L ++ outro)
      end
  end.
  split; [exact Hrun |].
  split; [rewrite Hm', HL, Hmr, <- !app_assoc; reflexivity |].
  match goal with
  | |- context [_ ∈ ?pre ++ L ++ ?post] =>
      rewrite !(elem_of_sandwich _ pre L post)
        by (intros H; no_such_line H)
  end.
  rewrite Hc, Hpass, Hfail. split.
  - split; intros H k Hk; specialize (H k Hk).
    + rewrite fmap_seq_total, generate_total in H by assumption. exact H.
    + rewrite fmap_seq_total, generate_total by assumption. exact H.
  - split; intros (k & Hk & H); exists k; (split; [exact Hk |]).
    + rewrite fmap_seq_total, generate_total in H by assumption. exact H.
    + rewrite fmap_seq_total, generate_total by assumption. exact H.
Qed.

Lemma test_verdict_for_any_unit_witness :
  exists m' lines,
    smz_test (Engine (fun c a w => w) (fun c a w => 0))
      (replicate 196 0) (replicate 196 0)
      (Machine (fun _ => 0) (fun _ => 0) [] []) = Some (tt, m') /\
    console m' = console (Machine (fun _ => 0) (fun _ => 0) [] []) ++ lines /\
    (OutStr "✓ PASS: ALL DATA MATCHED!\n" ∈ lines <->
     forall k : nat, (k < 196)%nat ->
       decrypt (Engine (fun c a w => w) (fun c a w => 0))
         (csrs m') (SECURE_ADDR + 4 * Z.of_nat k)
         (encrypt (Engine (fun c a w => w) (fun c a w => 0))
                  (csrs m') (SECURE_ADDR + 4 * Z.of_nat k)
                  (pattern_word (Z.of_nat k)))
       = pattern_word (Z.of_nat k)) /\
    (OutStr "✗ FAIL: Mismatch detected\n" ∈ lines <->
     exists k : nat, (k < 196)%nat /\
       decrypt (Engine (fun c a w => w) (fun c a w => 0))
         (csrs m') (SECURE_ADDR + 4 * Z.of_nat k)
         (encrypt (Engine (fun c a w => w) (fun c a w => 0))
                  (csrs m') (SECURE_ADDR + 4 * Z.of_nat k)
                  (pattern_word (Z.of_nat k)))
       <> pattern_word (Z.of_nat k)).
Proof.
  apply (test_verdict_for_any_unit (Engine (fun c a w => w) (fun c a w => 0)));
    reflexivity.
Defined.

(** X15. Behind any SMZ unit the test runs to completion and leaves the
    zone configured and enabled: BASE holds 0x10000, SIZE holds 0x1000,
    ENABLE holds 1, and no other CSR has changed. In RAM it changes nothing
    outside the 196 words at 0x10000 .. 0x1030F. *)
Theorem test_final_state (smz : engine)
    (test_image0 read_image0 : list Z) (m : machine) :
  length test_image0 = 196%nat -> length read_image0 = 196%nat ->
  exists m',
    smz_test smz test_image0 read_image0 m = Some (tt, m') /\
    csrs m' CSR_SMZ_BASE = 0x10000 /\
    csrs m' CSR_SMZ_SIZE = 0x1000 /\
    csrs m' CSR_SMZ_ENABLE = 1 /\
    (forall csr : Z,
       csr <> CSR_SMZ_BASE -> csr <> CSR_SMZ_SIZE -> csr <> CSR_SMZ_ENABLE ->
       csrs m' csr = csrs m csr) /\
    (forall a : Z,
       a < 0x10000 \/ 0x10000 + 4 * 196 <= a \/ a mod 4 <> 0 ->
       ram m' a = ram m a).
Proof.
  intros Hlt Hlr.
  pose proof (smz_test_any smz test_image0 read_image0 m Hlt Hlr) as Hany.
  cbv zeta in Hany.
  destruct Hany as (m' & mr & mr' & Hrun & _ & _ & _ & Hc & _ & Hframe).
  exists m'. split; [exact Hrun |]. rewrite Hc.
  unfold CSR_SMZ_BASE, CSR_SMZ_SIZE, CSR_SMZ_ENABLE, SECURE_ADDR, SECURE_SIZE.
  split.
  { rewrite (fn_lookup_insert_ne _ 0x202 0x200) by lia.
    rewrite (fn_lookup_insert_ne _ 0x201 0x200) by lia.
    apply fn_lookup_insert. }
  split.
  { rewrite (fn_lookup_insert_ne _ 0x202 0x201) by lia. apply fn_lookup_insert. }
  split; [apply fn_lookup_insert |]. split.
  - intros csr Hb Hs He.
    rewrite (fn_lookup_insert_ne _ 0x202 csr) by congruence.
    rewrite (fn_lookup_insert_ne _ 0x201 csr) by congruence.
    rewrite (fn_lookup_insert_ne _ 0x200 csr) by congruence. reflexivity.
  - intros a Ha. apply Hframe. intros k Hk ->. unfold SECURE_ADDR in Ha.
    destruct Ha as [Ha | [Ha | Ha]]; [lia | lia |]. apply Ha.
    replace (65536 + 4 * Z.of_nat k) with ((16384 + Z.of_nat k) * 4) by lia.
    apply Z.mod_mul. lia.
Qed.

Lemma test_final_state_witness :
  exists m',
    smz_test (Engine (fun c a w => Z.lxor w a) (fun c a w => w))
      (replicate 196 0) (replicate 196 0)
      (Machine (fun _ => 9) (fun _ => 0) [] []) = Some (tt, m') /\
    csrs m' CSR_SMZ_BASE = 0x10000 /\
    csrs m' CSR_SMZ_SIZE = 0x1000 /\
    csrs m' CSR_SMZ_ENABLE = 1 /\
    (forall csr : Z,
       csr <> CSR_SMZ_BASE -> csr <> CSR_SMZ_SIZE -> csr <> CSR_SMZ_ENABLE ->
       csrs m' csr = csrs (Machine (fun _ => 9) (fun _ => 0) [] []) csr) /\
    (forall a : Z,
       a < 0x10000 \/ 0x10000 + 4 * 196 <= a \/ a mod 4 <> 0 ->
       ram m' a = ram (Machine (fun _ => 9) (fun _ => 0) [] []) a).
Proof.
  apply (test_final_state (Engine (fun c a w => Z.lxor w a) (fun c a w => w)));
    reflexivity.
Defined.

Lemma fmap_seq_ext {A : Type} (f g : nat -> A) (n : nat) :
  (forall k : nat, (k < n)%nat -> f k = g k) -> f <$> seq 0 n = g <$> seq 0 n.
Proof.
  intros Hfg. apply list_eq. intros i. rewrite !list_lookup_fmap.
  destruct (seq 0 n !! i) as [k |] eqn:Hk; [| reflexivity].
  apply lookup_seq in Hk as [-> Hi]. cbn. rewrite Hfg by exact Hi. reflexivity.
Qed.

(** X16. The accesses of a whole run, behind any SMZ unit and in program
    order: the three CSR writes and three CSR reads of STEP 1, then 196
    stores to the words of the window in index order, each storing the
    unit's encryption of the pattern word, then 196 loads from the same
    words in index order. Every address stored to or loaded from is
    word-aligned and lies, with its four bytes, inside the window
    [SECURE_ADDR, SECURE_ADDR + SECURE_SIZE). *)
Theorem test_accesses (smz : engine)
    (test_image0 read_image0 : list Z) (m : machine) :
  length test_image0 = 196%nat -> length read_image0 = 196%nat ->
  exists m' evs,
    smz_test smz test_image0 read_image0 m = Some (tt, m') /\
    trace m' = trace m ++ evs /\
    evs =
      [EvCsrWrite CSR_SMZ_BASE SECURE_ADDR;
       EvCsrWrite CSR_SMZ_SIZE SECURE_SIZE;
       EvCsrWrite CSR_SMZ_ENABLE 1;
       EvCsrRead CSR_SMZ_BASE; EvCsrRead CSR_SMZ_SIZE;
       EvCsrRead CSR_SMZ_ENABLE]
      ++ ((fun k => EvStore (SECURE_ADDR + 4 * Z.of_nat k)
             (encrypt smz (csrs m') (SECURE_ADDR + 4 * Z.of_nat k)
                      (pattern_word (Z.of_nat k)))) <$> seq 0 196)
      ++ ((fun k => EvLoad (SECURE_ADDR + 4 * Z.of_nat k)) <$> seq 0 196) /\
    forall (e : event) (a : Z),
      e ∈ evs -> (e = EvLoad a \/ exists v, e = EvStore a v) ->
      SECURE_ADDR <= a /\ a + 4 <= SECURE_ADDR + SECURE_SIZE /\ a mod 4 = 0.
Proof.
  intros Hlt Hlr.
  pose proof (smz_test_any smz test_image0 read_image0 m Hlt Hlr) as Hany.
  cbv zeta in Hany.
  destruct Hany as (m' & mr & mr' & Hrun & _ & _ & _ & Hc & Ht & _).
  eexists m', _. split; [exact Hrun |]. split; [exact Ht |].
  assert (Hwin : forall k : nat, (k < 196)%nat ->
            SECURE_ADDR <= SECURE_ADDR + 4 * Z.of_nat k /\
            SECURE_ADDR + 4 * Z.of_nat k + 4 <= SECURE_ADDR + SECURE_SIZE /\
            (SECURE_ADDR + 4 * Z.of_nat k) mod 4 = 0).
  { intros k Hk. unfold SECURE_ADDR, SECURE_SIZE. split; [lia |]. split; [lia |].
    replace (65536 + 4 * Z.of_nat k) with ((16384 + Z.of_nat k) * 4) by lia.
    apply Z.mod_mul. lia. }
  split.
  - rewrite Hc. do 2 f_equal. apply fmap_seq_ext. intros k Hk.
    rewrite generate_total by assumption. reflexivity.
  - intros e a He Hkind.
    apply elem_of_app in He as [He | He].
    { destruct Hkind as [-> | [v ->]]; exfalso;
        repeat (apply elem_of_cons in He as [He | He]; [discriminate He |]);
        apply elem_of_nil in He; exact He. }
    apply elem_of_app in He as [He | He];
      apply list_elem_of_fmap in He as (k & -> & Hk);
      apply elem_of_seq in Hk;
      destruct Hkind as [Heq | [v Heq]]; try discriminate Heq;
      injection Heq as <-; apply Hwin; lia.
Qed.

Lemma test_accesses_witness :
  exists m' evs,
    smz_test (Engine (fun c a w => Z.lxor w a) (fun c a w => w))
      (replicate 196 0) (replicate 196 0)
      (Machine (fun _ => 0) (fun _ => 0) [] []) = Some (tt, m') /\
    trace m' = trace (Machine (fun _ => 0) (fun _ => 0) [] []) ++ evs /\
    evs =
      [EvCsrWrite CSR_SMZ_BASE SECURE_ADDR;
       EvCsrWrite CSR_SMZ_SIZE SECURE_SIZE;
       EvCsrWrite CSR_SMZ_ENABLE 1;
       EvCsrRead CSR_SMZ_BASE; EvCsrRead CSR_SMZ_SIZE;
       EvCsrRead CSR_SMZ_ENABLE]
      ++ ((fun k => EvStore (SECURE_ADDR + 4 * Z.of_nat k)
             (encrypt (Engine (fun c a w => Z.lxor w a) (fun c a w => w))
                      (csrs m') (SECURE_ADDR + 4 * Z.of_nat k)
                      (pattern_word (Z.of_nat k)))) <$> seq 0 196)
      ++ ((fun k => EvLoad (SECURE_ADDR + 4 * Z.of_nat k)) <$> seq 0 196) /\
    forall (e : event) (a : Z),
      e ∈ evs -> (e = EvLoad a \/ exists v, e = EvStore a v) ->
      SECURE_ADDR <= a /\ a + 4 <= SECURE_ADDR + SECURE_SIZE /\ a mod 4 = 0.
Proof.
  apply (test_accesses (Engine (fun c a w => Z.lxor w a) (fun c a w => w)));
    reflexivity.
Defined.

(** X17. A whole run behind a unit that gives back every pattern word
    except the one at index [k]: the test runs to completion and prints 195
    matching words, the FAIL line, 1 mismatch, [k] as the first mismatch,
    pattern word [k] as the expected value and what the unit returned for
    it as the value got. *)
Theorem corrupted_word_reported (smz : engine)
    (test_image0 read_image0 : list Z) (k : nat) (m : machine) :
  length test_image0 = 196%nat -> length read_image0 = 196%nat ->
  (k < 196)%nat ->
  (forall (c : Z -> Z) (i : nat), (i < 196)%nat -> i <> k ->
     decrypt smz c (SECURE_ADDR + 4 * Z.of_nat i)
       (encrypt smz c (SECURE_ADDR + 4 * Z.of_nat i) (pattern_word (Z.of_nat i)))
     = pattern_word (Z.of_nat i)) ->
  (forall c : Z -> Z,
     decrypt smz c (SECURE_ADDR + 4 * Z.of_nat k)
       (encrypt smz c (SECURE_ADDR + 4 * Z.of_nat k) (pattern_word (Z.of_nat k)))
     <> pattern_word (Z.of_nat k)) ->
  exists m',
    smz_test smz test_image0 read_image0 m = Some (tt, m') /\
    console m' =
      console m
        ++ [OutStr "\n"; OutStr "====================================\n";
            OutStr "SMZ Pipeline Test\n";
            OutStr "28x28 Image Encryption Verification\n";
            OutStr "====================================\n\n";
            OutStr "STEP 1: Configure SMZ CSRs\n";
            OutStr "  Base: 0x"; OutHex 0x10000 8;
            OutStr "  Size: 0x"; OutHex 0x1000 8;
            OutStr "  Enable: "; OutDec 1; OutStr "\n\n";
            OutStr "STEP 2: Generate 28x28 Test Image (784 bytes)\n";
            OutStr "  Generated pattern. First word: 0x";
            OutHex 0xAABB0000 8; OutStr "\n\n";
            OutStr "STEP 3: Write Image to Secure Memory (encrypted on write)\n";
            OutStr "  Wrote 196 words to 0x"; OutHex 0x10000 8;
            OutStr " (data gets encrypted by SMZ)\n\n";
            OutStr "STEP 4: Read Back from Secure Memory (decrypted on read)\n";
            OutStr "  Read 196 words from secure memory\n\n";
            OutStr "STEP 5: Verify Data Integrity\n";
            OutStr "  Matching words: "; OutDec 195; OutStr " / 196\n\n";
            OutStr "✗ FAIL: Mismatch detected\n";
            OutStr "  Mismatches: "; OutDec 1; OutStr "\n";
            OutStr "  First mismatch at word "; OutDec (Z.of_nat k);
            OutStr ":\n";
            OutStr "    Expected: 0x"; OutHex (pattern_word (Z.of_nat k)) 8;
            OutStr "\n";
            OutStr "    Got: 0x";
            OutHex (decrypt smz (csrs m') (SECURE_ADDR + 4 * Z.of_nat k)
                      (encrypt smz (csrs m') (SECURE_ADDR + 4 * Z.of_nat k)
                               (pattern_word (Z.of_nat k)))) 8;
            OutStr "\n";
            OutStr "\n====================================\n";
            OutStr "Test Complete\n";
            OutStr "====================================\n\n"].
Proof.
  intros Hlt Hlr Hk Hgood Hbad.
  pose proof (smz_test_any smz test_image0 read_image0 m Hlt Hlr) as Hany.
  cbv zeta in Hany.
  destruct Hany as (m' & mr & mr' & Hrun & Hrep & Hmr & Hm' & Hc & _).
  exists m'. split; [exact Hrun |].
  match type of Hrep with
  | context [verify ?rb ?pat] =>
      assert (Hv : verify rb pat = (195, Z.of_nat k))
  end.
  { unfold verify. rewrite (compare_one_off _ _ k 196); [| exact Hk | lia | |].
    - destruct (Nat.leb_spec 196 k); [lia | reflexivity].
    - rewrite fmap_seq_total, generate_total by assumption. apply Hbad.
    - intros i Hi Hne. rewrite fmap_seq_total, generate_total by assumption.
      apply Hgood; assumption. }
  rewrite Hv, report_run in Hrep.
  apply (f_equal (fun o : option (unit * machine) =>
                    match o with Some (_, x) => console x | None => [] end))
    in Hrep.
  cbn [console] in Hrep. rewrite Hm', <- Hrep, Hmr.
  change (195 =? 196) with false. cbn iota.
  destruct (Z.eqb_spec (Z.of_nat k) (-1)) as [Hneg | _]; [lia |].
  rewrite Nat2Z.id, fmap_seq_total, generate_total, Hc by assumption.
  repeat rewrite <- app_assoc. reflexivity.
Qed.

Lemma corrupted_word_reported_witness :
  exists m',
    smz_test (Engine (fun c a w => w)
                     (fun c a w => if a =? 0x10000 + 4 * 7 then Z.lxor w 1 else w))
      (replicate 196 0) (replicate 196 0)
      (Machine (fun _ => 0) (fun _ => 0) [] []) = Some (tt, m') /\
    exists transcript,
      console m' = console (Machine (fun _ => 0) (fun _ => 0) [] []) ++ transcript /\
      OutStr "✗ FAIL: Mismatch detected\n" ∈ transcript /\
      OutDec (Z.of_nat 7) ∈ transcript.
Proof.
  destruct (corrupted_word_reported
              (Engine (fun c a w => w)
                      (fun c a w => if a =? 0x10000 + 4 * 7 then Z.lxor w 1 else w))
              (replicate 196 0) (replicate 196 0) 7
              (Machine (fun _ => 0) (fun _ => 0) [] []))
    as (m' & Hrun & Hconsole).
  - reflexivity.
  - reflexivity.
  - lia.
  - intros c i Hi Hne. cbn [encrypt decrypt]. unfold SECURE_ADDR.
    destruct (Z.eqb_spec (65536 + 4 * Z.of_nat i) (65536 + 4 * 7)); [lia | reflexivity].
  - intros c. vm_compute. discriminate.
  - exists m'. split; [exact Hrun |]. eexists. split; [exact Hconsole |].
    split; has_line.
Defined.

End TestExtra.
